(** * Portfolio accounting of the stock tracker ([app.py])

    A shallow embedding of the accounting core of [app.py]:
    the price resolver [fetch_stock_info], the transaction reduction and the
    report of [get_portfolio_summary], and the "add_transaction" branch of
    the [index] route.

    Numbers.  The program computes with Python floats.  Two models are
    used.  The general statements are over the rationals [Q] with exact
    arithmetic: [+ - * /] are the field operations, comparisons are the
    rational order, [int(x)] is truncation toward zero and [round(x, 2)] is
    rounding to the nearest hundredth, ties to even.  They relate the values
    of the program through the operations the program itself performs, in
    its order; rounding error, infinities and NaN are outside that model,
    and the inputs on which a statement is refuted are chosen so that every
    intermediate value is exactly representable in binary64: there the model
    and the program compute the same numbers.  Where a statement names the
    value the program computes on an input that is not of this kind, the
    reduction and the report are evaluated on binary64 itself (module
    [B64]), with the rounding of every operation.

    Dictionaries.  [stock_status] is iterated in insertion order, which
    decides the order of the report lines: it is an association list.  The
    price cache, the price snapshot and the name directory are only looked
    up by key: they are [gmap]s. *)

From Stdlib Require Import QArith Qround Qminmax Lqa ZArith Lia List Ascii String.
From stdpp Require Import gmap strings.
From Stdlib Require Import Floats.
Import ListNotations.

Local Open Scope Q_scope.

(** ** Python numbers on [Q] *)

Module Py.

(** [x > y] *)
Definition gt (x y : Q) : bool := negb (Qle_bool x y).

(** [x < y] *)
Definition lt (x y : Q) : bool := negb (Qle_bool y x).

(** [x <= y] *)
Definition le (x y : Q) : bool := Qle_bool x y.

(** [x == y] and [x != y] *)
Definition eq (x y : Q) : bool := Qeq_bool x y.
Definition ne (x y : Q) : bool := negb (Qeq_bool x y).

(** [int(x)]: truncation toward zero. *)
Definition int (x : Q) : Z := Z.quot (Qnum x) (Zpos (Qden x)).

(** [x % y] on floats: the remainder has the sign of [y]. *)
Definition mod_ (x y : Q) : Q := x - y * inject_Z (Qfloor (x / y)).

(** [max(a, b)]: the first argument unless the second is greater. *)
Definition max (a b : Q) : Q := if gt b a then b else a.

(** Nearest integer, ties to even. *)
Definition round_half_even (x : Q) : Z :=
  let f := Qfloor x in
  let r := x - inject_Z f in
  if lt r (1 # 2) then f
  else if gt r (1 # 2) then (f + 1)%Z
  else if Z.even f then f else (f + 1)%Z.

(** [round(x, 2)] *)
Definition round2 (x : Q) : Q := round_half_even (x * 100) # 100.

(** [s.split('.')[0]]: the text before the first dot. *)
Fixpoint before_dot (s : string) : string :=
  match s with
  | EmptyString => EmptyString
  | String c rest =>
      if Ascii.eqb c "."%char then EmptyString else String c (before_dot rest)
  end.

(** [s.endswith(suffix)] *)
Fixpoint endswith (s suffix : string) : bool :=
  if String.eqb s suffix then true
  else match s with
       | EmptyString => false
       | String _ rest => endswith rest suffix
       end.

End Py.

(** ** Transactions and the per-security running state *)

(** A row of the transaction sheet, as [get_transactions_from_google_sheet]
    builds it. *)
Record Transaction := mkTransaction {
  Date : string;
  Stock_Code : string;
  Stock_Name : string;
  Type_ : string;
  Quantity : Q;
  Price : Q;
  Fee : Q;
  Tax : Q
}.

(** A value of the [stock_status] dictionary. *)
Record Status := mkStatus {
  name : string;
  quantity : Q;
  total_buy_cost : Q;
  total_sell_revenue : Q;
  total_fee_tax : Q;
  buy_quantity : Q;
  sell_quantity : Q;
  realized_profit : Q;
  is_otc : bool
}.

(** The entry created at the first row of a security code. *)
Definition new_status (row : Transaction) : Status :=
  {| name := Stock_Name row;
     quantity := 0;
     total_buy_cost := 0;
     total_sell_revenue := 0;
     total_fee_tax := 0;
     buy_quantity := 0;
     sell_quantity := 0;
     realized_profit := 0;
     is_otc := Py.endswith (Stock_Code row) ".TWO" |}.

(** [total_buy_cost / buy_quantity if buy_quantity > 0 else 0] *)
Definition avg_buy_price (st : Status) : Q :=
  if Py.gt (buy_quantity st) 0 then total_buy_cost st / buy_quantity st else 0.

(** The branch [row["Type"] == "Buy"]. *)
Definition apply_buy (row : Transaction) (st : Status) : Status :=
  {| name := name st;
     quantity := quantity st + Quantity row;
     total_buy_cost :=
       total_buy_cost st + (Quantity row * Price row + Fee row + Tax row);
     total_sell_revenue := total_sell_revenue st;
     total_fee_tax := total_fee_tax st + (Fee row + Tax row);
     buy_quantity := buy_quantity st + Quantity row;
     sell_quantity := sell_quantity st;
     realized_profit := realized_profit st;
     is_otc := is_otc st |}.

(** The four in-place updates that open the [else] branch. *)
Definition sell_updates (row : Transaction) (st : Status) : Status :=
  {| name := name st;
     quantity := quantity st - Quantity row;
     total_buy_cost := total_buy_cost st;
     total_sell_revenue :=
       total_sell_revenue st + (Quantity row * Price row - Fee row - Tax row);
     total_fee_tax := total_fee_tax st + (Fee row + Tax row);
     buy_quantity := buy_quantity st;
     sell_quantity := sell_quantity st + Quantity row;
     realized_profit := realized_profit st;
     is_otc := is_otc st |}.

(** The local variable [realized_profit] of the [else] branch, computed on
    the entry as it stands after [sell_updates]. *)
Definition sale_profit (row : Transaction) (st : Status) : Q :=
  (Price row - avg_buy_price st) * Quantity row - Fee row - Tax row.

Definition add_realized (p : Q) (st : Status) : Status :=
  {| name := name st;
     quantity := quantity st;
     total_buy_cost := total_buy_cost st;
     total_sell_revenue := total_sell_revenue st;
     total_fee_tax := total_fee_tax st;
     buy_quantity := buy_quantity st;
     sell_quantity := sell_quantity st;
     realized_profit := realized_profit st + p;
     is_otc := is_otc st |}.

(** The whole [else] branch. *)
Definition apply_sell (row : Transaction) (st : Status) : Status :=
  let st1 := sell_updates row st in
  add_realized (sale_profit row st1) st1.

Definition is_buy (row : Transaction) : bool := String.eqb (Type_ row) "Buy".

Definition apply_row (row : Transaction) (st : Status) : Status :=
  if is_buy row then apply_buy row st else apply_sell row st.

(** ** The [stock_status] dictionary, in insertion order *)

Module Dict.

Definition t : Type := list (string * Status).

Fixpoint get (d : t) (k : string) : option Status :=
  match d with
  | [] => None
  | (k', v) :: rest => if String.eqb k' k then Some v else get rest k
  end.

(** [k in d] *)
Definition mem (d : t) (k : string) : bool :=
  match get d k with Some _ => true | None => false end.

(** In-place update of the value stored at [k]. *)
Fixpoint alter (f : Status -> Status) (k : string) (d : t) : t :=
  match d with
  | [] => []
  | (k', v) :: rest =>
      if String.eqb k' k then (k', f v) :: rest
      else (k', v) :: alter f k rest
  end.

(** [d[k] = v] for a key that is not in [d]: a new last item. *)
Definition add_new (k : string) (v : Status) (d : t) : t := d ++ [(k, v)].

Definition keys (d : t) : list string := map fst d.

End Dict.

(** One iteration of [for row in transactions]. *)
Definition ledger_step (stock_status : Dict.t) (row : Transaction) : Dict.t :=
  let full_code := Stock_Code row in
  let stock_status :=
    if negb (Dict.mem stock_status full_code)
    then Dict.add_new full_code (new_status row) stock_status
    else stock_status in
  Dict.alter (apply_row row) full_code stock_status.

(** The first loop of [get_portfolio_summary], from [stock_status]. *)
Definition ledger_from (stock_status : Dict.t) (transactions : list Transaction)
  : Dict.t :=
  fold_left ledger_step transactions stock_status.

(** The first loop of [get_portfolio_summary], from [stock_status = {}]. *)
Definition ledger (transactions : list Transaction) : Dict.t :=
  ledger_from [] transactions.

(** The entry of a security as the loop body sees it once the
    [if full_code not in stock_status] block has run. *)
Definition entry_before (stock_status : Dict.t) (row : Transaction) : Status :=
  match Dict.get stock_status (Stock_Code row) with
  | Some st => st
  | None => new_status row
  end.

(** The value the local variable [realized_profit] takes at [row] when the
    loop reaches it with [stock_status]: none at a Buy row. *)
Definition profit_at (stock_status : Dict.t) (row : Transaction) : option Q :=
  if is_buy row then None
  else Some (sale_profit row
               (sell_updates row (entry_before stock_status row))).

(** These values row by row, along the loop. *)
Fixpoint sale_profits_from (stock_status : Dict.t)
    (transactions : list Transaction) : list (option Q) :=
  match transactions with
  | [] => []
  | row :: rest =>
      profit_at stock_status row
      :: sale_profits_from (ledger_step stock_status row) rest
  end.

Definition sale_profits (transactions : list Transaction) : list (option Q) :=
  sale_profits_from [] transactions.

(** ** The price resolver [fetch_stock_info] *)

(** The dictionary [{"price": ..., "name": ...}] that [fetch_stock_info]
    returns. *)
Module Info.
Record t := mk { price : Q; name : string }.
End Info.

(** A value of [fetch_stock_info.cache]. *)
Module CacheEntry.
Record t := mk { timestamp : Q; data : Info.t }.
End CacheEntry.

(** What the resolver does outside its own attributes, in call order: it
    reads the clock, reloads the name directory, reads the price snapshot
    [fetch_stock_info.google_sheets_prices], asks Yahoo Finance. *)
Inductive event :=
| EvTime
| EvLoadNames
| EvSnapshot (full_code : string)
| EvYahoo (full_code : string).

(** The outcome of the [try] block around [yf.Ticker(...).history(...)]:
    an exception, an empty frame, or the last close. *)
Inductive yf_result :=
| YfRaise
| YfEmpty
| YfClose (close : Q).

(** The world outside the program: each answer may depend on everything
    that happened before. *)
Record Env := mkEnv {
  time_time : list event -> Q;
  load_stock_names : list event -> gmap (string * string) string;
  yf_history : list event -> string -> yf_result
}.

(** The attributes of the function object [fetch_stock_info] ([None]: the
    attribute is not set yet), and the history of the calls. *)
Record World := mkWorld {
  cache : option (gmap string CacheEntry.t);
  google_sheets_prices : option (gmap string Q);
  trace : list event
}.

Section Resolver.

Variable env : Env.

(** [fetch_stock_info] below the cache test. *)
Definition fetch_fresh (full_code code market_key : string)
    (cache : gmap string CacheEntry.t) (prices : gmap string Q)
    (current_time : Q) (tr : list event) : Info.t * World :=
  let stock_names := load_stock_names env tr in
  let tr := tr ++ [EvLoadNames] in
  let name := default "未知名稱"%string (stock_names !! (code, market_key)) in
  let tr := tr ++ [EvSnapshot full_code] in
  let price :=
    if decide (prices = ∅) then 0 else default 0 (prices !! full_code) in
  let '(price, tr) :=
    if Py.eq price 0 then
      let answer := yf_history env tr full_code in
      let tr := tr ++ [EvYahoo full_code] in
      match answer with
      | YfClose close => (close, tr)
      | YfEmpty => (price, tr)
      | YfRaise => (0, tr)
      end
    else (price, tr) in
  let result := Info.mk (Py.round2 price) name in
  (result,
   {| cache := Some (<[full_code := CacheEntry.mk current_time result]> cache);
      google_sheets_prices := Some prices;
      trace := tr |}).

Definition fetch_stock_info (full_code : string) (w : World)
  : Info.t * World :=
  let code := Py.before_dot full_code in
  let market_key :=
    if Py.endswith full_code ".TWO" then "TWO"%string else "TWSE"%string in
  let prices := default ∅ (google_sheets_prices w) in
  let cache := default ∅ (cache w) in
  let current_time := time_time env (trace w) in
  let tr := trace w ++ [EvTime] in
  match cache !! full_code with
  | Some cached_data =>
      if Py.lt (current_time - CacheEntry.timestamp cached_data) 1800
      then (CacheEntry.data cached_data,
            {| cache := Some cache;
               google_sheets_prices := Some prices;
               trace := tr |})
      else fetch_fresh full_code code market_key cache prices current_time tr
  | None => fetch_fresh full_code code market_key cache prices current_time tr
  end.

End Resolver.

(** ** The report of [get_portfolio_summary] *)

(** The local variables of one iteration of
    [for full_code, data in stock_status.items()]. *)
Record Locals := mkLocals {
  l_full_code : string;
  l_data : Status;
  current_price : Q;
  market_value : Q;
  l_avg_buy_price : Q;
  unrealized_profit : Q;
  current_cost : Q
}.

Definition locals_of (full_code : string) (data : Status) (current_price : Q)
  : Locals :=
  let market_value := quantity data * current_price in
  let avg := avg_buy_price data in
  {| l_full_code := full_code;
     l_data := data;
     current_price := current_price;
     market_value := market_value;
     l_avg_buy_price := avg;
     unrealized_profit :=
       if Py.gt (quantity data) 0
       then (current_price - avg) * quantity data else 0;
     current_cost :=
       if Py.gt (quantity data) 0 then avg * quantity data else 0 |}.

(** The price lookup that opens the iteration. *)
Definition price_of (env : Env) (full_code : string) (data : Status)
    (w : World) : Q * World :=
  if Py.gt (quantity data) 0
  then let '(stock_info, w) := fetch_stock_info env full_code w in
       (Info.price stock_info, w)
  else (0, w).

(** A dictionary of the list [result]. *)
Module Line.
Record t := mk {
  Stock_Code : string;
  Stock_Name : string;
  Quantity : Z;
  Avg_Buy_Price : Q;
  Current_Price : Q;
  Total_Cost : Z;
  Market_Value : Z;
  Unrealized_Profit : Z;
  Realized_Profit : Z;
  Full_Code : string
}.
End Line.

Definition line_of (l : Locals) : Line.t :=
  {| Line.Stock_Code := Py.before_dot (l_full_code l);
     Line.Stock_Name := name (l_data l);
     Line.Quantity := Py.int (quantity (l_data l));
     Line.Avg_Buy_Price := Py.round2 (l_avg_buy_price l);
     Line.Current_Price := Py.round2 (current_price l);
     Line.Total_Cost := Py.int (current_cost l);
     Line.Market_Value := Py.int (market_value l);
     Line.Unrealized_Profit := Py.int (unrealized_profit l);
     Line.Realized_Profit := Py.int (realized_profit (l_data l));
     Line.Full_Code := l_full_code l |}.

(** The tuple [get_portfolio_summary] returns. *)
Record Summary := mkSummary {
  result : list Line.t;
  total_quantity : Q;
  total_cost : Q;
  total_market_value : Q;
  total_unrealized_profit : Q;
  total_realized_profit : Q
}.

Definition empty_summary : Summary := mkSummary [] 0 0 0 0 0.

(** The accumulations and the [result.append] that close an iteration. *)
Definition accumulate (acc : Summary) (l : Locals) : Summary :=
  {| result := result acc ++ [line_of l];
     total_quantity := total_quantity acc + quantity (l_data l);
     total_cost := total_cost acc + current_cost l;
     total_market_value := total_market_value acc + market_value l;
     total_unrealized_profit :=
       total_unrealized_profit acc + unrealized_profit l;
     total_realized_profit :=
       total_realized_profit acc + realized_profit (l_data l) |}.

Section Summary.

Variable env : Env.

(** One iteration of [for full_code, data in stock_status.items()]. *)
Definition summary_step (s : Summary * World) (item : string * Status)
  : Summary * World :=
  let '(acc, w) := s in
  let '(full_code, data) := item in
  let '(current_price, w) := price_of env full_code data w in
  (accumulate acc (locals_of full_code data current_price), w).

Definition summary_loop (stock_status : Dict.t) (s : Summary * World)
  : Summary * World :=
  fold_left summary_step stock_status s.

(** [get_portfolio_summary(transactions)] for a list that is given. *)
Definition get_portfolio_summary (transactions : list Transaction)
    (w : World) : Summary * World :=
  match transactions with
  | [] => (empty_summary, w)
  | _ => summary_loop (ledger transactions) (empty_summary, w)
  end.

(** The local variables of the successive iterations. *)
Fixpoint iterations (stock_status : Dict.t) (w : World) : list Locals :=
  match stock_status with
  | [] => []
  | (full_code, data) :: rest =>
      let '(current_price, w) := price_of env full_code data w in
      locals_of full_code data current_price :: iterations rest w
  end.

(** The world after the successive iterations. *)
Fixpoint world_after (stock_status : Dict.t) (w : World) : World :=
  match stock_status with
  | [] => w
  | (full_code, data) :: rest =>
      world_after rest (snd (price_of env full_code data w))
  end.

End Summary.

(** ** The "add_transaction" branch of the [index] route *)

(** The fields of [request.form] the branch reads ([None]: not posted). *)
Record Form := mkForm {
  form_date : option string;
  form_code : option string;
  form_name : option string;
  form_market : option string;
  form_type : option string;
  form_quantity : option string;
  form_price : option string
}.

(** The value [error] is left with, one constructor per message. *)
Inductive entry_error :=
| ErrEmptyCode      (* the code is empty *)
| ErrQuantity       (* the quantity must be positive *)
| ErrLotSize        (* the quantity must be a multiple of 1000 *)
| ErrPrice          (* the price must be positive *)
| ErrInvalidInput   (* [except ValueError]: [float] refused the text *)
| ErrAppendFailed   (* [add_transaction_to_google_sheet] returned [False] *)
| ErrNoClient.      (* [setup_google_sheets] returned [None] *)

(** [not s] for a form field. *)
Definition blank (s : option string) : bool :=
  match s with
  | None => true
  | Some EmptyString => true
  | Some (String _ _) => false
  end.

Section Entry.

(** Python's [str.strip] and [float] ([None]: [ValueError]), and
    [datetime.now().strftime("%Y-%m-%d")]. *)
Variable strip : string -> string.
Variable float : string -> option Q.
Variable default_date : string.

(** The [else] branch of the validation: the new row. *)
Definition new_transaction (date code name market trans_type : string)
    (quantity price : Q) : Transaction :=
  let fee := Py.max 20 (price * quantity * 0.001425) in
  let tax :=
    if String.eqb trans_type "Sell" then price * quantity * 0.003 else 0 in
  let code_with_suffix :=
    if String.eqb market "TWO" then (code ++ ".TWO")%string
    else (code ++ ".TW")%string in
  {| Date := date;
     Stock_Code := code_with_suffix;
     Stock_Name := name;
     Type_ := trans_type;
     Quantity := quantity;
     Price := price;
     Fee := fee;
     Tax := tax |}.

(** The validation chain: the error it sets, or the row it builds. *)
Definition validate (f : Form) : entry_error + Transaction :=
  let date := default default_date (form_date f) in
  let code := strip (default ""%string (form_code f)) in
  let name :=
    let n := strip (default ""%string (form_name f)) in
    if blank (Some n) then "未知股票"%string else n in
  let market := default "TWSE"%string (form_market f) in
  let trans_type := default "Buy"%string (form_type f) in
  if blank (Some code) then inl ErrEmptyCode
  else if blank (form_quantity f) then inl ErrQuantity
  else match float (default ""%string (form_quantity f)) with
  | None => inl ErrInvalidInput
  | Some quantity =>
      if Py.le quantity 0 then inl ErrQuantity
      else if Py.ne (Py.mod_ quantity 1000) 0 then inl ErrLotSize
      else if blank (form_price f) then inl ErrPrice
      else match float (default ""%string (form_price f)) with
      | None => inl ErrInvalidInput
      | Some price =>
          if Py.le price 0 then inl ErrPrice
          else inr (new_transaction date code name market trans_type
                      quantity price)
      end
  end.

(** The branch as a whole, on the rows of the sheet: [client] says whether
    [setup_google_sheets] gave a client, [appended] whether
    [add_transaction_to_google_sheet] appended the row and returned
    [True]. *)
Definition add_transaction (f : Form) (client appended : bool)
    (sheet : list Transaction) : option entry_error * list Transaction :=
  match validate f with
  | inl e => (Some e, sheet)
  | inr row =>
      if client then
        if appended then (None, sheet ++ [row])
        else (Some ErrAppendFailed, sheet)
      else (Some ErrNoClient, sheet)
  end.

End Entry.

(** [float] on plain decimal numerals, [digits] or [digits.digits]: what
    Python's [float] returns on them, up to rounding. *)
Module Decimal.

Definition digit (c : ascii) : option Z :=
  let n := Z.of_nat (nat_of_ascii c) in
  if ((48 <=? n) && (n <=? 57))%Z then Some (n - 48)%Z else None.

(** Reads digits into [acc]; [scale] counts the digits after the dot as a
    power of ten ([None] before the dot). *)
Fixpoint read (s : string) (acc : Z) (scale : option positive) (seen : bool)
  : option Q :=
  match s with
  | EmptyString =>
      if seen then Some (acc # default 1%positive scale) else None
  | String c rest =>
      if Ascii.eqb c "."%char then
        match scale with
        | None => read rest acc (Some 1%positive) seen
        | Some _ => None
        end
      else
        match digit c with
        | None => None
        | Some d =>
            read rest (10 * acc + d)%Z
                 (option_map (Pos.mul 10) scale) true
        end
  end.

Definition float (s : string) : option Q := read s 0%Z None false.

End Decimal.

(** ** The reduction and the report on binary64 *)

(** The rational model follows the operations of the program one by one,
    not their rounding.  Where a property names a computed value, the
    program is evaluated on the numbers it really has: IEEE 754 binary64,
    the [float] of Python, with round-to-nearest-even after every
    operation.  The module below is the same reduction and the same report,
    read from the same lines of [get_portfolio_summary], on [float].  The
    integer [0] that initialises a field or a total is the float [0]: the
    first [+=] with a float converts it. *)

Module B64.

Local Open Scope float_scope.

(** [x > y]: false as soon as one side is NaN. *)
Definition gt (x y : float) : bool := PrimFloat.ltb y x.

(** The rational a finite float stands for. *)
Definition exact (x : float) : option Q :=
  match Prim2SF x with
  | S754_zero _ => Some 0%Q
  | S754_finite s m e =>
      let n := if s then Z.neg m else Z.pos m in
      Some match e with
           | Z.neg p => (n # 2 ^ p)%Q
           | _ => inject_Z (n * 2 ^ e)
           end
  | _ => None
  end.

(** [int(x)]: truncation toward zero; [None] is the [ValueError] of a NaN
    and the [OverflowError] of an infinity. *)
Definition int (x : float) : option Z := option_map Py.int (exact x).

(** The float nearest to an integer. *)
Definition of_Z (z : Z) : float := SF2Prim (binary_normalize prec emax z 0 false).

(** [round(x, 2)]: the float nearest to the decimal with two places nearest
    to the exact value of [x], ties to even.  From [2^46] on, floats are
    more than 0.01 apart and [x] is its own rounding; below, the hundredths
    fit in 53 bits and the division rounds once.  A result of zero keeps
    the sign of [x]; NaN and the infinities are returned as they are. *)
Definition round2 (x : float) : float :=
  match exact x with
  | None => x
  | Some q =>
      if PrimFloat.leb 0x1p+46 (abs x) then x
      else
        let z := Py.round_half_even (q * 100) in
        if (z =? 0)%Z then x * 0 else of_Z z / 100
  end.

Record Transaction := mkTransaction {
  Date : string;
  Stock_Code : string;
  Stock_Name : string;
  Type_ : string;
  Quantity : float;
  Price : float;
  Fee : float;
  Tax : float
}.

Record Status := mkStatus {
  name : string;
  quantity : float;
  total_buy_cost : float;
  total_sell_revenue : float;
  total_fee_tax : float;
  buy_quantity : float;
  sell_quantity : float;
  realized_profit : float;
  is_otc : bool
}.

Definition new_status (row : Transaction) : Status :=
  {| name := Stock_Name row;
     quantity := 0;
     total_buy_cost := 0;
     total_sell_revenue := 0;
     total_fee_tax := 0;
     buy_quantity := 0;
     sell_quantity := 0;
     realized_profit := 0;
     is_otc := Py.endswith (Stock_Code row) ".TWO" |}.

Definition avg_buy_price (st : Status) : float :=
  if gt (buy_quantity st) 0 then total_buy_cost st / buy_quantity st else 0.

Definition apply_buy (row : Transaction) (st : Status) : Status :=
  {| name := name st;
     quantity := quantity st + Quantity row;
     total_buy_cost :=
       total_buy_cost st + (Quantity row * Price row + Fee row + Tax row);
     total_sell_revenue := total_sell_revenue st;
     total_fee_tax := total_fee_tax st + (Fee row + Tax row);
     buy_quantity := buy_quantity st + Quantity row;
     sell_quantity := sell_quantity st;
     realized_profit := realized_profit st;
     is_otc := is_otc st |}.

Definition sell_updates (row : Transaction) (st : Status) : Status :=
  {| name := name st;
     quantity := quantity st - Quantity row;
     total_buy_cost := total_buy_cost st;
     total_sell_revenue :=
       total_sell_revenue st + (Quantity row * Price row - Fee row - Tax row);
     total_fee_tax := total_fee_tax st + (Fee row + Tax row);
     buy_quantity := buy_quantity st;
     sell_quantity := sell_quantity st + Quantity row;
     realized_profit := realized_profit st;
     is_otc := is_otc st |}.

Definition sale_profit (row : Transaction) (st : Status) : float :=
  (Price row - avg_buy_price st) * Quantity row - Fee row - Tax row.

Definition add_realized (p : float) (st : Status) : Status :=
  {| name := name st;
     quantity := quantity st;
     total_buy_cost := total_buy_cost st;
     total_sell_revenue := total_sell_revenue st;
     total_fee_tax := total_fee_tax st;
     buy_quantity := buy_quantity st;
     sell_quantity := sell_quantity st;
     realized_profit := realized_profit st + p;
     is_otc := is_otc st |}.

Definition apply_sell (row : Transaction) (st : Status) : Status :=
  let st1 := sell_updates row st in
  add_realized (sale_profit row st1) st1.

Definition is_buy (row : Transaction) : bool := String.eqb (Type_ row) "Buy".

Definition apply_row (row : Transaction) (st : Status) : Status :=
  if is_buy row then apply_buy row st else apply_sell row st.

(** [stock_status], in insertion order. *)
Fixpoint mem (d : list (string * Status)) (k : string) : bool :=
  match d with
  | [] => false
  | (k', _) :: rest => if String.eqb k k' then true else mem rest k
  end.

Fixpoint alter (f : Status -> Status) (k : string) (d : list (string * Status))
  : list (string * Status) :=
  match d with
  | [] => []
  | (k', v) :: rest =>
      if String.eqb k k' then (k', f v) :: rest else (k', v) :: alter f k rest
  end.

(** One iteration of [for row in transactions]. *)
Definition ledger_step (stock_status : list (string * Status))
    (row : Transaction) : list (string * Status) :=
  let full_code := Stock_Code row in
  let stock_status :=
    if mem stock_status full_code then stock_status
    else stock_status ++ [(full_code, new_status row)] in
  alter (apply_row row) full_code stock_status.

Definition ledger (transactions : list Transaction) : list (string * Status) :=
  fold_left ledger_step transactions [].

(** The local variables of one iteration of
    [for full_code, data in stock_status.items()]. *)
Record Locals := mkLocals {
  l_full_code : string;
  l_data : Status;
  current_price : float;
  market_value : float;
  l_avg_buy_price : float;
  unrealized_profit : float;
  current_cost : float
}.

Definition locals_of (full_code : string) (data : Status)
    (current_price : float) : Locals :=
  let market_value := quantity data * current_price in
  let avg := avg_buy_price data in
  {| l_full_code := full_code;
     l_data := data;
     current_price := current_price;
     market_value := market_value;
     l_avg_buy_price := avg;
     unrealized_profit :=
       if gt (quantity data) 0
       then (current_price - avg) * quantity data else 0;
     current_cost :=
       if gt (quantity data) 0 then avg * quantity data else 0 |}.

Module Line.
Record t := mk {
  Stock_Code : string;
  Stock_Name : string;
  Quantity : Z;
  Avg_Buy_Price : float;
  Current_Price : float;
  Total_Cost : Z;
  Market_Value : Z;
  Unrealized_Profit : Z;
  Realized_Profit : Z;
  Full_Code : string
}.
End Line.

(** The dictionary appended to [result]; [None] when one of the [int]
    calls raises. *)
Definition line_of (l : Locals) : option Line.t :=
  match int (quantity (l_data l)), int (current_cost l),
        int (market_value l), int (unrealized_profit l),
        int (realized_profit (l_data l)) with
  | Some q, Some c, Some m, Some u, Some r =>
      Some {| Line.Stock_Code := Py.before_dot (l_full_code l);
              Line.Stock_Name := name (l_data l);
              Line.Quantity := q;
              Line.Avg_Buy_Price := round2 (l_avg_buy_price l);
              Line.Current_Price := round2 (current_price l);
              Line.Total_Cost := c;
              Line.Market_Value := m;
              Line.Unrealized_Profit := u;
              Line.Realized_Profit := r;
              Line.Full_Code := l_full_code l |}
  | _, _, _, _, _ => None
  end.

Record Summary := mkSummary {
  result : list Line.t;
  total_quantity : float;
  total_cost : float;
  total_market_value : float;
  total_unrealized_profit : float;
  total_realized_profit : float
}.

Definition empty_summary : Summary := mkSummary [] 0 0 0 0 0.

Definition accumulate (acc : Summary) (l : Locals) (line : Line.t) : Summary :=
  {| result := result acc ++ [line];
     total_quantity := total_quantity acc + quantity (l_data l);
     total_cost := total_cost acc + current_cost l;
     total_market_value := total_market_value acc + market_value l;
     total_unrealized_profit :=
       total_unrealized_profit acc + unrealized_profit l;
     total_realized_profit :=
       total_realized_profit acc + realized_profit (l_data l) |}.

Section Summary.

(** The resolver is any function of the process state that returns the
    price of [fetch_stock_info(full_code)]. *)
Context {World : Type}.
Variable fetch_price : string -> World -> float * World.

Definition price_of (full_code : string) (data : Status) (w : World)
  : float * World :=
  if gt (quantity data) 0 then fetch_price full_code w else (0, w).

(** [for full_code, data in stock_status.items()]; an exception ends the
    loop and is the outcome of the call. *)
Fixpoint summary_loop (stock_status : list (string * Status)) (acc : Summary)
    (w : World) : option Summary * World :=
  match stock_status with
  | [] => (Some acc, w)
  | (full_code, data) :: rest =>
      let '(current_price, w) := price_of full_code data w in
      let l := locals_of full_code data current_price in
      match line_of l with
      | Some line => summary_loop rest (accumulate acc l line) w
      | None => (None, w)
      end
  end.

Definition get_portfolio_summary (transactions : list Transaction) (w : World)
  : option Summary * World :=
  match transactions with
  | [] => (Some empty_summary, w)
  | _ => summary_loop (ledger transactions) empty_summary w
  end.

End Summary.

(** Buy 1000 at 10, fee 20; then sell 1000 at 12, fee 20 and tax 36. *)
Definition buy_1000_at_10 (date code name : string) : Transaction :=
  mkTransaction date code name "Buy" 1000 10 20 0.

Definition sell_1000_at_12 (date code name : string) : Transaction :=
  mkTransaction date code name "Sell" 1000 12 20 36.

(** The float nearest to 10.02. *)
Definition f10_02 : float := 0x1.40a3d70a3d70ap+3.

(** The float just above 1924: 1924.0000000000005 when printed. *)
Definition above_1924 : float := 0x1.e100000000002p+10.

End B64.

(** ** Definitions used to state the properties *)

(** The average as the specification words it: the quotient, or 0 when the
    bought quantity is 0. *)
Definition average_or_zero (cost bought : Q) : Q :=
  if Py.eq bought 0 then 0 else cost / bought.

(** No entry of the dictionary has a negative bought quantity. *)
Definition buy_quantity_nonneg (d : Dict.t) : Prop :=
  forall c st, Dict.get d c = Some st -> 0 <= buy_quantity st.

(** Every row has a non-negative quantity (the data model asks for a
    positive one). *)
Definition quantities_nonneg (transactions : list Transaction) : Prop :=
  Forall (fun r => 0 <= Quantity r) transactions.

(** The row with another text in its [Type] field. *)
Definition with_type (ty : string) (row : Transaction) : Transaction :=
  {| Date := Date row;
     Stock_Code := Stock_Code row;
     Stock_Name := Stock_Name row;
     Type_ := ty;
     Quantity := Quantity row;
     Price := Price row;
     Fee := Fee row;
     Tax := Tax row |}.

(** The profits computed at the rows of one security code, in row order. *)
Fixpoint profits_of (c : string) (transactions : list Transaction)
    (profits : list (option Q)) : list Q :=
  match transactions, profits with
  | row :: rows, Some p :: ps =>
      if String.eqb (Stock_Code row) c
      then p :: profits_of c rows ps else profits_of c rows ps
  | _ :: rows, None :: ps => profits_of c rows ps
  | _, _ => []
  end.

(** [0 + x1 + x2 + ...], as a [total += x] loop adds up. *)
Definition sumQ (xs : list Q) : Q := fold_left Qplus xs 0.

(** The sum of an integer field over the lines of a report. *)
Definition sum_lines (field : Line.t -> Z) (lines : list Line.t) : Z :=
  fold_left Z.add (map field lines) 0%Z.

(** The totals of a summary are the sums of the fields [Total_Cost],
    [Market_Value], [Unrealized_Profit] and [Realized_Profit] of its lines. *)
Definition totals_are_line_sums (s : Summary) : Prop :=
  total_cost s == inject_Z (sum_lines Line.Total_Cost (result s)) /\
  total_market_value s == inject_Z (sum_lines Line.Market_Value (result s)) /\
  total_unrealized_profit s
    == inject_Z (sum_lines Line.Unrealized_Profit (result s)) /\
  total_realized_profit s
    == inject_Z (sum_lines Line.Realized_Profit (result s)).

(** The test [data["quantity"] > 0] on an item of [stock_status]. *)
Definition held (item : string * Status) : bool :=
  Py.gt (quantity (snd item)) 0.

(** The resolver called for each code in turn. *)
Definition fetch_each (env : Env) (codes : list string) (w : World) : World :=
  fold_left (fun w c => snd (fetch_stock_info env c w)) codes w.

(** The tiers of the price resolution, in the words of the specification:
    the snapshot's value when the code is in the snapshot with a non-zero
    value; otherwise the close the fallback provider answers, 0 when it
    fails or answers nothing. *)
Definition snapshot_value (prices : gmap string Q) (full_code : string)
  : option Q :=
  match prices !! full_code with
  | Some p => if Py.eq p 0 then None else Some p
  | None => None
  end.

Definition fallback_price (answer : yf_result) : Q :=
  match answer with
  | YfClose close => close
  | YfEmpty | YfRaise => 0
  end.

Definition tier_price (prices : gmap string Q) (answer : yf_result)
    (full_code : string) : Q :=
  match snapshot_value prices full_code with
  | Some p => p
  | None => fallback_price answer
  end.

(** The events of a resolution through the tiers, after the clock was read. *)
Definition tier_events (prices : gmap string Q) (full_code : string)
  : list event :=
  [EvLoadNames; EvSnapshot full_code]
  ++ match snapshot_value prices full_code with
     | Some _ => []
     | None => [EvYahoo full_code]
     end.

(** The cache holds an entry for the code that is less than 30 minutes old
    at time [now]. *)
Definition unexpired (w : World) (now : Q) (full_code : string) : Prop :=
  exists entry,
    default ∅ (cache w) !! full_code = Some entry /\
    now - CacheEntry.timestamp entry < 1800.

(** The Buy rows of one security code, and what they add up to. *)
Definition buys_of (c : string) (transactions : list Transaction)
  : list Transaction :=
  List.filter (fun r => String.eqb (Stock_Code r) c && is_buy r) transactions.

Definition bought_cost (c : string) (transactions : list Transaction) : Q :=
  fold_left (fun acc r => acc + (Quantity r * Price r + Fee r + Tax r))
    (buys_of c transactions) 0.

Definition bought_quantity (c : string) (transactions : list Transaction) : Q :=
  fold_left (fun acc r => acc + Quantity r) (buys_of c transactions) 0.

(** The entry of a code, the all-zero entry when the code has no row yet. *)
Definition entry_of (d : Dict.t) (c : string) (row : Transaction) : Status :=
  match Dict.get d c with
  | Some st => st
  | None => new_status row
  end.

(** ** Sample inputs *)

Module Sample.

(** Buy 1000 at 10, fee 20; then sell 1000 at 12, fee 20 and tax 36. *)
Definition buy_1000_at_10 (date code name : string) : Transaction :=
  mkTransaction date code name "Buy" 1000 10 20 0.

Definition sell_1000_at_12 (date code name : string) : Transaction :=
  mkTransaction date code name "Sell" 1000 12 20 36.

Definition tsmc_buy : Transaction :=
  buy_1000_at_10 "2024-01-02" "2330.TW" "TSMC".

Definition tsmc_sell : Transaction :=
  sell_1000_at_12 "2024-02-01" "2330.TW" "TSMC".

(** A position opened and closed with a profit of 2317.5: buy 1000 at 10
    with fee 125, sell 1000 at 12.5 with fee 20 and tax 37.5. *)
Definition exit_buy : Transaction :=
  mkTransaction "2024-03-01" "2317.TW" "Hon Hai" "Buy" 1000 10 125 0.

Definition exit_sell : Transaction :=
  mkTransaction "2024-03-08" "2317.TW" "Hon Hai" "Sell" 1000 12.5 20 37.5.

(** A posted form: sell 1000 of 2330 at 12.5; and the same with 1500
    shares, with no price, with a price of 0. *)
Definition sell_form (quantity price : option string) : Form :=
  mkForm (Some "2024-05-02"%string) (Some "2330"%string)
         (Some "TSMC"%string) (Some "TWSE"%string) (Some "Sell"%string)
         quantity price.

Definition good_form : Form :=
  sell_form (Some "1000"%string) (Some "12.5"%string).

(** A row the entry path refuses (1.5 shares at price 0) but a sheet can
    hold. *)
Definition odd_row : Transaction :=
  mkTransaction "2024-05-03" "2330.TW" "TSMC" "Buy" 1.5 0 0 0.

(** A world in which no price source answers. *)
Definition silent : Env :=
  mkEnv (fun _ => 0) (fun _ => ∅) (fun _ _ => YfRaise).

(** The function attributes before the first call. *)
Definition fresh : World := mkWorld None None [].

(** A clock that reads 0 at first and 1740 (29 minutes) once anything
    has happened, and one that then reads 1860 (31 minutes); Yahoo
    Finance answers 512.344 for every code. *)
Definition after_29_minutes : Env :=
  mkEnv (fun tr => match tr with [] => 0 | _ => 1740 end)
        (fun _ => ∅) (fun _ _ => YfClose 512.344).

Definition after_31_minutes : Env :=
  mkEnv (fun tr => match tr with [] => 0 | _ => 1860 end)
        (fun _ => ∅) (fun _ _ => YfClose 512.344).

(** The snapshot prices one security, at 600.126. *)
Definition snapshot_only : World :=
  mkWorld None (Some {[ "2330.TW"%string := 600.126 ]}) [].

(** A price of 600.13 was cached for that security at time 0. *)
Definition cached_at_0 : World :=
  mkWorld (Some {[ "2330.TW"%string :=
                     CacheEntry.mk 0 (Info.mk 600.13 "TSMC") ]})
          (Some {[ "2330.TW"%string := 601 ]})
          [EvTime; EvLoadNames; EvSnapshot "2330.TW"].

End Sample.

(** * The rest of the program *)

(** ** More on the reduction *)

(** The rows of one security code. *)
Definition rows_of (c : string) (transactions : list Transaction)
  : list Transaction :=
  List.filter (fun r => String.eqb (Stock_Code r) c) transactions.

(** The security codes of the rows, each once, in the order in which they
    first appear. *)
Definition distinct_codes (transactions : list Transaction) : list string :=
  fold_left
    (fun seen r =>
       if existsb (String.eqb (Stock_Code r)) seen then seen
       else seen ++ [Stock_Code r])
    transactions [].

(** ** Reading the worksheets *)

(** A value in a record of [get_all_records]: a number, or text. *)
Inductive cell :=
| CNum (q : Q)
| CText (s : string).

(** What opening a worksheet and reading its records gives: an exception
    somewhere, or the records. *)
Inductive read (A : Type) :=
| ReadError
| Records (data : list A).

Arguments ReadError {A}.
Arguments Records {A} data.

(** A record of the worksheet of transactions ([None]: the record has no
    such key). *)
Record SheetRow := mkSheetRow {
  row_Date : option string;
  row_Stock_Code : option string;
  row_Stock_Name : option string;
  row_Type : option string;
  row_Quantity : option cell;
  row_Price : option cell;
  row_Fee : option cell;
  row_Tax : option cell
}.

(** A record of the worksheet "stock_names", as [get_prices_from_google_sheet]
    reads it: [str(row['code'])] and [row['price']] ([None]: no such key). *)
Record PriceRow := mkPriceRow {
  price_code : option string;
  price_value : option cell
}.

(** What [setup_google_sheets] gives: no client, or a client through which
    the two worksheets are read. *)
Record Client := mkClient {
  transactions_sheet : read SheetRow;
  prices_sheet : read PriceRow
}.

(** The globals [TRANSACTIONS_CACHE] and [TRANSACTIONS_CACHE_TIME]. *)
Record TxCache := mkTxCache {
  TRANSACTIONS_CACHE : option (list Transaction);
  TRANSACTIONS_CACHE_TIME : option Q
}.

(** [TRANSACTIONS_CACHE_DURATION] *)
Definition TRANSACTIONS_CACHE_DURATION : Q := 300.

Section Reading.

(** Python's [float] on text ([None]: [ValueError]). *)
Variable float : string -> option Q.

(** [float(x)] on a value of a record. *)
Definition float_cell (x : cell) : option Q :=
  match x with
  | CNum q => Some q
  | CText s => float s
  end.

(** [float(row.get(key, 0))] *)
Definition float_or_zero (x : option cell) : option Q :=
  match x with
  | None => Some 0
  | Some c => float_cell c
  end.

(** The dictionary built for one record, or the exception of a [float]. *)
Definition read_row (row : SheetRow) : option Transaction :=
  match float_or_zero (row_Quantity row) with
  | None => None
  | Some quantity =>
      match float_or_zero (row_Price row) with
      | None => None
      | Some price =>
          match float_or_zero (row_Fee row) with
          | None => None
          | Some fee =>
              match float_or_zero (row_Tax row) with
              | None => None
              | Some tax =>
                  Some {| Date := default ""%string (row_Date row);
                          Stock_Code :=
                            default ""%string (row_Stock_Code row);
                          Stock_Name :=
                            default ""%string (row_Stock_Name row);
                          Type_ := default ""%string (row_Type row);
                          Quantity := quantity;
                          Price := price;
                          Fee := fee;
                          Tax := tax |}
              end
          end
      end
  end.

(** The loop over the records: the list built, or the first exception. *)
Fixpoint read_rows (data : list SheetRow) : option (list Transaction) :=
  match data with
  | [] => Some []
  | row :: rest =>
      match read_row row with
      | None => None
      | Some t =>
          match read_rows rest with
          | None => None
          | Some ts => Some (t :: ts)
          end
      end
  end.

(** [get_transactions_from_google_sheet]: any exception gives [[]]. *)
Definition get_transactions_from_google_sheet (sheet : read SheetRow)
  : list Transaction :=
  match sheet with
  | ReadError => []
  | Records data => default [] (read_rows data)
  end.

(** [get_transactions] at time [current_time]. *)
Definition get_transactions (current_time : Q) (client : option Client)
    (st : TxCache) : list Transaction * TxCache :=
  let reload :=
    match client with
    | Some c =>
        let transactions :=
          get_transactions_from_google_sheet (transactions_sheet c) in
        (transactions,
         {| TRANSACTIONS_CACHE := Some transactions;
            TRANSACTIONS_CACHE_TIME := Some current_time |})
    | None => ([], st)
    end in
  match TRANSACTIONS_CACHE st, TRANSACTIONS_CACHE_TIME st with
  | Some cached, Some cache_time =>
      if Py.lt (current_time - cache_time) TRANSACTIONS_CACHE_DURATION
      then (cached, st)
      else reload
  | _, _ => reload
  end.

(** [TRANSACTIONS_CACHE = None], as [index] does after a row was added or
    deleted. *)
Definition forget_transactions (st : TxCache) : TxCache :=
  {| TRANSACTIONS_CACHE := None;
     TRANSACTIONS_CACHE_TIME := TRANSACTIONS_CACHE_TIME st |}.

(** The key under which a price is stored: the code, with ".TW" added
    unless it ends in ".TW" or ".TWO". *)
Definition price_key (code : string) : string :=
  if Py.endswith code ".TW" || Py.endswith code ".TWO" then code
  else (code ++ ".TW")%string.

(** One record of the loop of [get_prices_from_google_sheet]: a record
    without both keys, or whose price [float] refuses, is passed over. *)
Definition price_step (prices : gmap string Q) (row : PriceRow)
  : gmap string Q :=
  match price_code row, price_value row with
  | Some code, Some value =>
      match float_cell value with
      | Some price => <[price_key code := price]> prices
      | None => prices
      end
  | _, _ => prices
  end.

Definition read_prices (data : list PriceRow) : gmap string Q :=
  fold_left price_step data ∅.

(** [get_prices_from_google_sheet]: the prices returned and the function
    attribute set; an exception gives [{}] and sets nothing. *)
Definition get_prices_from_google_sheet (sheet : read PriceRow) (w : World)
  : gmap string Q * World :=
  match sheet with
  | ReadError => (∅, w)
  | Records data =>
      let prices := read_prices data in
      (prices,
       {| cache := cache w;
          google_sheets_prices := Some prices;
          trace := trace w |})
  end.

(** The action "update_all_prices" of [index], up to the summary: without
    a client nothing happens; with one the prices are read again and the
    cache of the resolver, if it exists, is emptied. *)
Definition refresh_prices (client : option Client) (w : World) : World :=
  match client with
  | None => w
  | Some c =>
      let w := snd (get_prices_from_google_sheet (prices_sheet c) w) in
      {| cache := match cache w with Some _ => Some ∅ | None => None end;
         google_sheets_prices := google_sheets_prices w;
         trace := trace w |}
  end.

End Reading.

(** The action "update_all_prices" of [index]: the summary of the rows
    already read, after [refresh_prices]; [None] stands for the error
    message set when there is no client. *)
Definition update_all_prices (float : string -> option Q) (env : Env)
    (client : option Client) (transactions : list Transaction) (w : World)
  : option Summary * World :=
  match client with
  | None => (None, w)
  | Some _ =>
      let '(s, w) :=
        get_portfolio_summary env transactions
          (refresh_prices float client w) in
      (Some s, w)
  end.

(** The record has a numeric cell that [float] refuses. *)
Definition unreadable (float : string -> option Q) (row : SheetRow) : Prop :=
  exists s,
    float s = None /\
    (row_Quantity row = Some (CText s) \/ row_Price row = Some (CText s) \/
     row_Fee row = Some (CText s) \/ row_Tax row = Some (CText s)).

(** The record stores a price under key [k]. *)
Definition prices_key (float : string -> option Q) (k : string)
    (row : PriceRow) : option Q :=
  match price_code row, price_value row with
  | Some code, Some value =>
      if String.eqb (price_key code) k then float_cell float value else None
  | _, _ => None
  end.

(** The last element of a list on which [f] gives a value. *)
Fixpoint last_some {A B : Type} (f : A -> option B) (l : list A) : option B :=
  match l with
  | [] => None
  | x :: rest =>
      match last_some f rest with
      | Some y => Some y
      | None => f x
      end
  end.

(** ** More on the entry path *)

(** A row as the entry path builds them. *)
Definition entered (r : Transaction) : Prop :=
  0 < Quantity r /\ (exists k : Z, Quantity r == 1000 * inject_Z k) /\
  0 < Price r /\ 20 <= Fee r /\ 0 <= Tax r /\
  (Py.endswith (Stock_Code r) ".TW" || Py.endswith (Stock_Code r) ".TWO"
   = true).

(** A sequence of submissions, each with what [setup_google_sheets] and
    [add_transaction_to_google_sheet] answered, applied to a sheet. *)
Definition submit_all (strip : string -> string) (float : string -> option Q)
    (default_date : string) (submissions : list (Form * bool * bool))
    (sheet : list Transaction) : list Transaction :=
  fold_left
    (fun sheet '(f, client, appended) =>
       snd (add_transaction strip float default_date f client appended sheet))
    submissions sheet.

(** ** The name directory and [fetch_stock_name] *)

(** A value of the column Name as [pandas] hands it over: the text of the
    cell; NaN, a float, for a cell without text; a number when the whole
    column reads as numbers.  Text that comes from the file is never
    empty. *)
Inductive name_value :=
| Text (s : string)
| NaN
| Number (q : Q).

(** The value as a condition: [if name], [not name].  NaN is true. *)
Definition truthy (v : name_value) : bool :=
  match v with
  | Text s => negb (blank (Some s))
  | NaN => true
  | Number q => negb (Qeq_bool q 0)
  end.

(** The dictionary [stock_names], keyed by code and market, in insertion
    order (the route iterates over it). *)
Module Names.

Definition t : Type := list ((string * string) * name_value).

Definition key_eqb (k k' : string * string) : bool :=
  String.eqb (fst k) (fst k') && String.eqb (snd k) (snd k').

Fixpoint get (d : t) (k : string * string) : option name_value :=
  match d with
  | [] => None
  | (k', v) :: rest => if key_eqb k' k then Some v else get rest k
  end.

(** [d[k] = v]: the value is replaced where the key stands, a new key goes
    to the end. *)
Fixpoint set (k : string * string) (v : name_value) (d : t) : t :=
  match d with
  | [] => [(k, v)]
  | (k', v') :: rest =>
      if key_eqb k' k then (k', v) :: rest else (k', v') :: set k v rest
  end.

End Names.

(** A row of the file of names: [str(row["Code"])], [row["Name"]] and
    [row["Market"]], a column taken to hold text. *)
Record NameRow := mkNameRow {
  csv_Code : string;
  csv_Name : name_value;
  csv_Market : string
}.

(** What reading the file of names gives: no file, a file in neither
    encoding, another exception, or a table with its column names. *)
Inductive names_file :=
| NoFile
| Undecodable
| Unreadable
| Table (columns : list string) (rows : list NameRow).

(** [load_stock_names] on the file as read. *)
Definition load_names (file : names_file) : Names.t :=
  match file with
  | NoFile | Undecodable | Unreadable => []
  | Table columns rows =>
      if decide (columns = ["Code"%string; "Name"%string; "Market"%string])
      then fold_left
             (fun stock_names row =>
                Names.set (csv_Code row, csv_Market row) (csv_Name row)
                  stock_names)
             rows []
      else []
  end.

(** [s.rstrip('B')] *)
Fixpoint rstrip_B (s : string) : string :=
  match s with
  | EmptyString => EmptyString
  | String c rest =>
      match rstrip_B rest with
      | EmptyString =>
          if Ascii.eqb c "B"%char then EmptyString
          else String c EmptyString
      | stripped => String c stripped
      end
  end.

(** [re.search(r'[\u4e00-\u9fff]', name)] on the UTF-8 bytes of the name:
    a character of that range is three bytes, the first from E4 to E9 and,
    when it is E4, the second at least B8. *)
Fixpoint has_cjk (s : string) : bool :=
  match s with
  | String a (String b _ as rest) =>
      let a := N_of_ascii a in
      let b := N_of_ascii b in
      if ((a =? 228) && (184 <=? b) || (229 <=? a) && (a <=? 233))%N
      then true
      else has_cjk rest
  | _ => false
  end.

(** What [fetch_stock_name] answers: one of its three JSON bodies, or the
    [TypeError] that [re.search] raises on a name that is not text, which
    nothing catches. *)
Inductive name_answer :=
| EnterCode                      (* no code was posted *)
| NameNotFound                   (* no name for the code *)
| NameFound (name : string) (is_english : bool)
| NameTypeError.

(** The first value stored under a key with this code, whatever the
    market: the loop with [break]. *)
Definition first_with_code (code : string) (stock_names : Names.t)
  : option name_value :=
  option_map snd
    (find (fun item => String.eqb (fst (fst item)) code) stock_names).

Section NameRoute.

Variable strip : string -> string.

(** [fetch_stock_name] on the posted fields and the directory loaded. *)
Definition fetch_stock_name (form_code form_market : option string)
    (stock_names : Names.t) : name_answer :=
  let code := strip (default ""%string form_code) in
  let market := default "TWSE"%string form_market in
  if blank (Some code) then EnterCode
  else
    let market_key :=
      if String.eqb market "TWO" then "TWO"%string else "TWSE"%string in
    let name :=
      default (Text "") (Names.get stock_names (code, market_key)) in
    let name :=
      if negb (truthy name) && Py.endswith code "B" && String.eqb market "TWO"
      then default (Text "")
             (Names.get stock_names (rstrip_B code, market_key))
      else name in
    let name :=
      if negb (truthy name)
      then default name (first_with_code code stock_names)
      else name in
    if negb (truthy name) then NameNotFound
    else
      match name with
      | Text name => NameFound name (negb (has_cjk name))
      | NaN | Number _ => NameTypeError
      end.

End NameRoute.

(** The name a row of the file gives for a code and a market. *)
Definition name_in_row (code market : string) (row : NameRow)
  : option name_value :=
  if String.eqb (csv_Code row) code && String.eqb (csv_Market row) market
  then Some (csv_Name row) else None.

(** ** The worksheet of names *)

From Stdlib Require Import DecimalString.

(** The worksheet "stock_names": the values the service returns for it,
    row by row down to the last row that holds one and, in a row, cell by
    cell up to the last cell that holds one; and the number of rows of its
    grid.  A cell holds the text that was entered. *)
Record NamesSheet := mkNamesSheet {
  names_values : list (list string);
  names_row_count : nat
}.

(** [fill_gaps] of gspread: every row is filled with empty cells up to the
    length of the longest one. *)
Definition fill_gaps (values : list (list string)) : list (list string) :=
  let width :=
    fold_right (fun row w => Nat.max (length row) w) 0%nat values in
  map (fun row => row ++ repeat ""%string (width - length row)) values.

(** A call to the service goes through or raises.  The list says so, call
    after call, [true] for a call that goes through; past its end every
    call goes through.  A call that raises leaves the worksheets as they
    were. *)
Definition call (outcomes : list bool) : bool * list bool :=
  match outcomes with
  | [] => (true, [])
  | ok :: outcomes => (ok, outcomes)
  end.

(** [s.replace(old, new)] for a non-empty [old]: [skip] characters of a
    match just replaced are still to be passed over. *)
Fixpoint replace_from (old new : string) (skip : nat) (s : string) : string :=
  match s with
  | EmptyString => EmptyString
  | String c rest =>
      match skip with
      | S k => replace_from old new k rest
      | O =>
          if String.prefix old s
          then (new ++ replace_from old new (String.length old - 1) rest)%string
          else String c (replace_from old new 0 rest)
      end
  end.

Definition replace (old new s : string) : string := replace_from old new 0 s.

(** The decimal numeral of a row number. *)
Definition numeral (n : nat) : string :=
  NilEmpty.string_of_uint (Nat.to_uint n).

(** A double quote. *)
Definition dquote : string := String (ascii_of_nat 34) EmptyString.

(** The formula written into column D. *)
Definition price_formula (full_code : string) : string :=
  let yahoo_code :=
    if Py.endswith full_code ".TWO" then replace ".TWO" ".TWO" full_code
    else (replace ".TW" "" full_code ++ ".TW")%string in
  ("=IMPORTXML(" ++ dquote ++ "https://tw.stock.yahoo.com/quote/"
   ++ yahoo_code ++ dquote ++ "," ++ dquote
   ++ "//*[@id='main-0-QuoteHeader-Proxy']/div/div[2]/div[1]/div/span[1]"
   ++ dquote ++ ")")%string.

Section NamesWorksheet.

(** What [get_all_values] returns for a worksheet without values: no row,
    or one row without cells, by the version of gspread. *)
Variable no_values : list (list string).

Definition get_all_values (ws : NamesSheet) : list (list string) :=
  match names_values ws with
  | [] => no_values
  | values => fill_gaps values
  end.

(** [check_stock_exists_in_names]; [names] is [None] when there is no such
    worksheet.  Both handlers return [False]. *)
Definition check_stock_exists_in_names (names : option NamesSheet)
    (full_code : string) (outcomes : list bool) : bool * list bool :=
  (* client.open(sheet_name).worksheet("stock_names") *)
  let '(ok, outcomes) := call outcomes in
  if negb ok then (false, outcomes)
  else
    match names with
    | None => (false, outcomes)
    | Some ws =>
        (* stock_names_sheet.get_all_values() *)
        let '(ok, outcomes) := call outcomes in
        if negb ok then (false, outcomes)
        else
          (existsb
             (fun row =>
                match row with
                | [] => false
                | first :: _ => String.eqb first full_code
                end)
             (get_all_values ws),
           outcomes)
    end.

(** The row [batch_update] writes at [next_row]. *)
Definition names_row (full_code name : string) (next_row : nat)
  : list string :=
  [full_code; ("=D" ++ numeral next_row)%string; name;
   price_formula full_code].

(** [add_stock_to_names_sheet] from [get_all_values] on, with the worksheet
    in hand: the new row goes below the rows that were read, the grid
    growing by 100 rows when it is full. *)
Definition write_names_row (ws : NamesSheet) (full_code name : string)
    (outcomes : list bool) : bool * option NamesSheet * list bool :=
  (* stock_names_sheet.get_all_values() *)
  let '(ok, outcomes) := call outcomes in
  if negb ok then (false, Some ws, outcomes)
  else
    let records := get_all_values ws in
    let next_row := S (length records) in
    let '(ok, ws, outcomes) :=
      if (names_row_count ws <? next_row)%nat
      then
        (* stock_names_sheet.add_rows(100) *)
        let '(ok, outcomes) := call outcomes in
        if ok
        then (true,
              mkNamesSheet (names_values ws) (names_row_count ws + 100),
              outcomes)
        else (false, ws, outcomes)
      else (true, ws, outcomes) in
    if negb ok then (false, Some ws, outcomes)
    else
      (* stock_names_sheet.batch_update(batch_data, ...) *)
      let '(ok, outcomes) := call outcomes in
      if negb ok then (false, Some ws, outcomes)
      else
        (true,
         Some (mkNamesSheet
                 (names_values ws
                  ++ repeat [] (length records - length (names_values ws))
                  ++ [names_row full_code name next_row])
                 (names_row_count ws)),
         outcomes).

(** [add_stock_to_names_sheet]: a missing worksheet is created with 1000
    rows and a header row.  Whatever raises is caught and [False] is
    returned; what was done before stays done. *)
Definition add_stock_to_names_sheet (names : option NamesSheet)
    (full_code name : string) (outcomes : list bool)
  : bool * option NamesSheet * list bool :=
  (* client.open(sheet_name).worksheet("stock_names") *)
  let '(ok, outcomes) := call outcomes in
  if negb ok then (false, names, outcomes)
  else
    match names with
    | Some ws => write_names_row ws full_code name outcomes
    | None =>
        (* client.open(sheet_name).add_worksheet(...) *)
        let '(ok, outcomes) := call outcomes in
        if negb ok then (false, None, outcomes)
        else
          (* stock_names_sheet.append_row([...]) *)
          let '(ok, outcomes) := call outcomes in
          if negb ok then (false, Some (mkNamesSheet [] 1000), outcomes)
          else
            write_names_row
              (mkNamesSheet
                 [["code"%string; "price"%string; "name"%string;
                   "pricenow"%string]]
                 1000)
              full_code name outcomes
    end.

(** What [add_transaction_to_google_sheet] returns and leaves behind: the
    rows of the worksheet of transactions, the worksheet of names, and the
    outcomes of the calls still to come. *)
Record Appended := mkAppended {
  returned : bool;
  sheet_after : list Transaction;
  names_after : option NamesSheet;
  outcomes_after : list bool
}.

(** [add_transaction_to_google_sheet].  The results of the check and of
    the addition to the worksheet of names are not looked at: once the row
    is appended the function returns [True]. *)
Definition add_transaction_to_google_sheet (sheet : list Transaction)
    (names : option NamesSheet) (transaction : Transaction)
    (outcomes : list bool) : Appended :=
  (* client.open(sheet_name).worksheet(worksheet_name) *)
  let '(ok, outcomes) := call outcomes in
  if negb ok then mkAppended false sheet names outcomes
  else
    (* sheet.append_row([...]) *)
    let '(ok, outcomes) := call outcomes in
    if negb ok then mkAppended false sheet names outcomes
    else
      let sheet := sheet ++ [transaction] in
      if String.eqb (Type_ transaction) "Buy" then
        let '(found, outcomes) :=
          check_stock_exists_in_names names (Stock_Code transaction)
            outcomes in
        if negb found then
          let '(_, names, outcomes) :=
            add_stock_to_names_sheet names (Stock_Code transaction)
              (Stock_Name transaction) outcomes in
          mkAppended true sheet names outcomes
        else mkAppended true sheet names outcomes
      else mkAppended true sheet names outcomes.

(** The code is in the first column of the worksheet of names: the check,
    when its calls go through. *)
Definition listed (names : option NamesSheet) (full_code : string) : bool :=
  fst (check_stock_exists_in_names names full_code []).

End NamesWorksheet.

(** ** More sample inputs *)

Module Sheet.

(** Two records of the worksheet of transactions; in the second one the
    fee is an empty cell. *)
Definition good_record : SheetRow :=
  mkSheetRow (Some "2024-01-02"%string) (Some "2330.TW"%string)
             (Some "TSMC"%string) (Some "Buy"%string)
             (Some (CNum 1000)) (Some (CText "10")) (Some (CNum 20)) None.

Definition empty_fee_record : SheetRow :=
  mkSheetRow (Some "2024-02-01"%string) (Some "2330.TW"%string)
             (Some "TSMC"%string) (Some "Sell"%string)
             (Some (CNum 1000)) (Some (CNum 12)) (Some (CText "")) (Some (CNum 36)).

(** Records of the worksheet of prices: a code without suffix, one with a
    price that is not a number, and a later price for the first code. *)
Definition price_records : list PriceRow :=
  [ mkPriceRow (Some "2330"%string) (Some (CNum 600));
    mkPriceRow (Some "6488.TWO"%string) (Some (CText "#N/A"));
    mkPriceRow (Some "2330.TW"%string) (Some (CText "601.5")) ].

Definition good_client : Client :=
  mkClient (Records [good_record]) (Records price_records).

Definition failing_client : Client :=
  mkClient (Records [good_record; empty_fee_record]) ReadError.

(** Nothing read yet. *)
Definition cold : TxCache := mkTxCache None None.

(** A file of names with one security listed on each market. *)
Definition name_rows : list NameRow :=
  [ mkNameRow "2330" (Text "台積電") "TWSE";
    mkNameRow "6488" (Text "GlobalWafers") "TWO" ].

(** A file of names in which the first row of a code has no name. *)
Definition unnamed_rows : list NameRow :=
  [ mkNameRow "1101" NaN "TWSE";
    mkNameRow "1101" (Text "TCC") "OTC" ].

End Sheet.

(** * Properties *)

(** ** Comparisons *)

Lemma gt_true (x y : Q) : Py.gt x y = true <-> y < x.
Proof.
  unfold Py.gt. rewrite negb_true_iff, <- not_true_iff_false, Qle_bool_iff.
  split; [apply Qnot_le_lt | apply Qlt_not_le].
Qed.

Lemma gt_false (x y : Q) : Py.gt x y = false <-> x <= y.
Proof. unfold Py.gt. rewrite negb_false_iff. apply Qle_bool_iff. Qed.

Lemma lt_true (x y : Q) : Py.lt x y = true <-> x < y.
Proof. apply (gt_true y x). Qed.

Lemma lt_false (x y : Q) : Py.lt x y = false <-> y <= x.
Proof. apply (gt_false y x). Qed.

Lemma le_true (x y : Q) : Py.le x y = true <-> x <= y.
Proof. apply Qle_bool_iff. Qed.

Lemma le_false (x y : Q) : Py.le x y = false <-> y < x.
Proof.
  unfold Py.le. rewrite <- not_true_iff_false, Qle_bool_iff.
  split; [apply Qnot_le_lt | apply Qlt_not_le].
Qed.

Lemma eq_true (x y : Q) : Py.eq x y = true <-> x == y.
Proof. apply Qeq_bool_iff. Qed.

Lemma ne_false (x y : Q) : Py.ne x y = false <-> x == y.
Proof. unfold Py.ne. rewrite negb_false_iff. apply Qeq_bool_iff. Qed.

(** ** The dictionary *)

Lemma get_alter (f : Status -> Status) (k k' : string) (d : Dict.t) :
  Dict.get (Dict.alter f k d) k' =
  if String.eqb k k' then option_map f (Dict.get d k) else Dict.get d k'.
Proof.
  induction d as [|[k0 v] d IH]; simpl.
  - now destruct (String.eqb k k').
  - destruct (String.eqb_spec k0 k) as [->|Hk0]; simpl.
    + now destruct (String.eqb_spec k k').
    + rewrite IH. destruct (String.eqb_spec k k') as [->|Hk].
      * now destruct (String.eqb_spec k0 k').
      * reflexivity.
Qed.

Lemma get_add_new (k k' : string) (v : Status) (d : Dict.t) :
  Dict.get (Dict.add_new k v d) k' =
  match Dict.get d k' with
  | Some v' => Some v'
  | None => if String.eqb k k' then Some v else None
  end.
Proof.
  unfold Dict.add_new. induction d as [|[k0 v0] d IH]; simpl.
  - reflexivity.
  - now destruct (String.eqb k0 k').
Qed.

(** What one row does to the dictionary, key by key. *)
Lemma get_ledger_step (stock_status : Dict.t) (row : Transaction) (c : string) :
  Dict.get (ledger_step stock_status row) c =
  if String.eqb (Stock_Code row) c
  then Some (apply_row row (entry_before stock_status row))
  else Dict.get stock_status c.
Proof.
  unfold ledger_step, entry_before, Dict.mem.
  destruct (Dict.get stock_status (Stock_Code row)) as [st|] eqn:Hget; simpl;
    rewrite get_alter.
  - rewrite Hget. reflexivity.
  - rewrite !get_add_new, Hget, String.eqb_refl. simpl.
    destruct (String.eqb_spec (Stock_Code row) c) as [<-|Hc]; [reflexivity|].
    destruct (Dict.get stock_status c); reflexivity.
Qed.

Lemma ledger_from_app (d : Dict.t) (txs txs' : list Transaction) :
  ledger_from d (txs ++ txs') = ledger_from (ledger_from d txs) txs'.
Proof. apply fold_left_app. Qed.

Lemma ledger_snoc (txs : list Transaction) (row : Transaction) :
  ledger (txs ++ [row]) = ledger_step (ledger txs) row.
Proof. unfold ledger. now rewrite ledger_from_app. Qed.

(** ** Non-negative quantities keep the bought quantity non-negative *)

Lemma apply_row_buy_quantity (row : Transaction) (st : Status) :
  0 <= Quantity row -> 0 <= buy_quantity st ->
  0 <= buy_quantity (apply_row row st).
Proof.
  intros Hq Hb. unfold apply_row. destruct (is_buy row); simpl; [lra | exact Hb].
Qed.

Lemma ledger_step_nonneg (d : Dict.t) (row : Transaction) :
  0 <= Quantity row -> buy_quantity_nonneg d ->
  buy_quantity_nonneg (ledger_step d row).
Proof.
  intros Hq Hd c st. rewrite get_ledger_step.
  destruct (String.eqb (Stock_Code row) c); [|apply Hd].
  intros [= <-]. apply apply_row_buy_quantity; [exact Hq|].
  unfold entry_before.
  destruct (Dict.get d (Stock_Code row)) as [st0|] eqn:Hget.
  - apply (Hd _ _ Hget).
  - simpl. lra.
Qed.

Lemma ledger_from_nonneg (txs : list Transaction) (d : Dict.t) :
  quantities_nonneg txs -> buy_quantity_nonneg d ->
  buy_quantity_nonneg (ledger_from d txs).
Proof.
  revert d. induction txs as [|row txs IH]; intros d Hall Hd; simpl.
  - exact Hd.
  - inversion Hall; subst. apply IH; [assumption|].
    now apply ledger_step_nonneg.
Qed.

Lemma entry_before_nonneg (d : Dict.t) (row : Transaction) :
  buy_quantity_nonneg d -> 0 <= buy_quantity (entry_before d row).
Proof.
  intros Hd. unfold entry_before.
  destruct (Dict.get d (Stock_Code row)) as [st|] eqn:Hget.
  - apply (Hd _ _ Hget).
  - simpl. lra.
Qed.

Lemma avg_buy_price_nonneg (st : Status) :
  0 <= buy_quantity st ->
  avg_buy_price st = average_or_zero (total_buy_cost st) (buy_quantity st).
Proof.
  intros Hb. unfold avg_buy_price, average_or_zero.
  destruct (Py.gt (buy_quantity st) 0) eqn:Hgt;
    destruct (Py.eq (buy_quantity st) 0) eqn:Heq; try reflexivity.
  - apply gt_true in Hgt. apply eq_true in Heq. lra.
  - apply gt_false in Hgt. exfalso.
    assert (buy_quantity st == 0) as H0 by lra.
    apply eq_true in H0. congruence.
Qed.

(** ** Closed forms of the running totals *)

Lemma buys_of_snoc (c : string) (txs : list Transaction) (row : Transaction) :
  buys_of c (txs ++ [row]) =
  buys_of c txs
  ++ (if String.eqb (Stock_Code row) c && is_buy row then [row] else []).
Proof. unfold buys_of. now rewrite List.filter_app. Qed.

(** The buy cost and the bought quantity of an entry are the sums over the
    Buy rows of its code so far. *)
Lemma buy_totals_closed (txs : list Transaction) (c : string)
    (row0 : Transaction) :
  total_buy_cost (entry_of (ledger txs) c row0) = bought_cost c txs /\
  buy_quantity (entry_of (ledger txs) c row0) = bought_quantity c txs.
Proof.
  induction txs as [|row txs IH] using rev_ind.
  - split; reflexivity.
  - destruct IH as [IHc IHq].
    unfold entry_of, bought_cost, bought_quantity in *.
    rewrite ledger_snoc, get_ledger_step, buys_of_snoc, !fold_left_app.
    destruct (String.eqb_spec (Stock_Code row) c) as [Hc|Hc]; simpl.
    + subst c. unfold entry_before, apply_row.
      destruct (Dict.get (ledger txs) (Stock_Code row)) as [st|];
        destruct (is_buy row); simpl in *;
        rewrite <- ?IHc, <- ?IHq; split; reflexivity.
    + split; assumption.
Qed.

(** ** The reduction, row by row *)

(** C1.  The reduction is one left-to-right pass: the rows [txs ++ [row]]
    are reduced by reducing [txs] and then applying [row] to the entry of
    its security code, every other entry being left alone.  For rows with
    non-negative quantities, a Buy adds the quantity to the held and to the
    bought quantity and [quantity*price + fee + tax] to the buy cost; a Sell
    subtracts the quantity from the held quantity, adds
    [quantity*price - fee - tax] to the sell revenue, the quantity to the
    sold quantity and [(price - average)*quantity - fee - tax] to the
    realized profit, where [average] is the buy cost over the bought
    quantity, both summed over the Buy rows of the code up to and including
    this row, or 0 when that quantity is 0. *)
Theorem ledger_single_pass (txs : list Transaction) (row : Transaction) :
  quantities_nonneg (txs ++ [row]) ->
  let c := Stock_Code row in
  let before := entry_before (ledger txs) row in
  exists after,
    ledger (txs ++ [row]) = ledger_step (ledger txs) row /\
    Dict.get (ledger (txs ++ [row])) c = Some after /\
    (forall c', c' <> c ->
       Dict.get (ledger (txs ++ [row])) c' = Dict.get (ledger txs) c') /\
    total_buy_cost after = bought_cost c (txs ++ [row]) /\
    buy_quantity after = bought_quantity c (txs ++ [row]) /\
    (Type_ row = "Buy"%string ->
       quantity after = quantity before + Quantity row /\
       total_buy_cost after =
         total_buy_cost before
         + (Quantity row * Price row + Fee row + Tax row) /\
       buy_quantity after = buy_quantity before + Quantity row /\
       total_sell_revenue after = total_sell_revenue before /\
       sell_quantity after = sell_quantity before /\
       realized_profit after = realized_profit before) /\
    (Type_ row = "Sell"%string ->
       quantity after = quantity before - Quantity row /\
       total_sell_revenue after =
         total_sell_revenue before
         + (Quantity row * Price row - Fee row - Tax row) /\
       sell_quantity after = sell_quantity before + Quantity row /\
       total_buy_cost after = total_buy_cost before /\
       buy_quantity after = buy_quantity before /\
       realized_profit after =
         realized_profit before
         + ((Price row
             - average_or_zero (bought_cost c (txs ++ [row]))
                 (bought_quantity c (txs ++ [row])))
            * Quantity row - Fee row - Tax row)).
Proof.
  intros Hall c before.
  exists (apply_row row before).
  assert (Hget : forall c',
             Dict.get (ledger (txs ++ [row])) c' =
             if String.eqb c c'
             then Some (apply_row row before) else Dict.get (ledger txs) c').
  { intros c'. rewrite ledger_snoc. apply get_ledger_step. }
  assert (Hafter : Dict.get (ledger (txs ++ [row])) c
                   = Some (apply_row row before)).
  { rewrite Hget, String.eqb_refl. reflexivity. }
  destruct (buy_totals_closed (txs ++ [row]) c row) as [Hcost Hbought].
  unfold entry_of in Hcost, Hbought. rewrite Hafter in Hcost, Hbought.
  split; [apply ledger_snoc|].
  split; [exact Hafter|].
  split.
  { intros c' Hc'. rewrite Hget.
    destruct (String.eqb_spec c c'); congruence. }
  split; [exact Hcost|]. split; [exact Hbought|].
  rewrite <- Hcost, <- Hbought.
  unfold apply_row, is_buy. split; intros Hty; rewrite Hty; simpl.
  - repeat split; reflexivity.
  - repeat split; try reflexivity.
    unfold sale_profit.
    rewrite (avg_buy_price_nonneg (sell_updates row before)); [reflexivity|].
    simpl. apply entry_before_nonneg.
    apply Forall_app in Hall as [Htxs _].
    apply ledger_from_nonneg; [exact Htxs|].
    intros c' st. discriminate.
Qed.

Lemma ledger_single_pass_witness :
  quantities_nonneg ([Sample.tsmc_buy] ++ [Sample.tsmc_sell]) /\
  exists after,
    ledger ([Sample.tsmc_buy] ++ [Sample.tsmc_sell]) =
      ledger_step (ledger [Sample.tsmc_buy]) Sample.tsmc_sell /\
    Dict.get (ledger ([Sample.tsmc_buy] ++ [Sample.tsmc_sell])) "2330.TW"
      = Some after /\
    realized_profit after == 1924.
Proof.
  assert (H : quantities_nonneg ([Sample.tsmc_buy] ++ [Sample.tsmc_sell])).
  { repeat constructor; simpl; lra. }
  split; [exact H|].
  destruct (ledger_single_pass [Sample.tsmc_buy] Sample.tsmc_sell H)
    as (after & Hstep & Hget & _ & _ & _ & _ & Hsell).
  exists after. split; [exact Hstep|]. split; [exact Hget|].
  destruct (Hsell eq_refl) as (_ & _ & _ & _ & _ & Hprofit).
  rewrite Hprofit. vm_compute. reflexivity.
Defined.

(** ** Appending rows *)

Lemma sale_profits_from_app (txs txs' : list Transaction) (d : Dict.t) :
  sale_profits_from d (txs ++ txs') =
  sale_profits_from d txs ++ sale_profits_from (ledger_from d txs) txs'.
Proof.
  revert d. induction txs as [|row txs IH]; intros d; simpl.
  - reflexivity.
  - now rewrite IH.
Qed.

Lemma sale_profits_length (txs : list Transaction) (d : Dict.t) :
  length (sale_profits_from d txs) = length txs.
Proof.
  revert d. induction txs as [|row txs IH]; intros d; simpl; [|rewrite IH];
    reflexivity.
Qed.

Lemma sale_profits_snoc (txs : list Transaction) (row : Transaction) :
  sale_profits (txs ++ [row]) = sale_profits txs ++ [profit_at (ledger txs) row].
Proof. unfold sale_profits. now rewrite sale_profits_from_app. Qed.

Lemma profits_of_snoc (c : string) (txs : list Transaction)
    (ps : list (option Q)) (row : Transaction) (p : option Q) :
  length txs = length ps ->
  profits_of c (txs ++ [row]) (ps ++ [p]) =
  profits_of c txs ps ++ profits_of c [row] [p].
Proof.
  revert ps. induction txs as [|r txs IH]; intros [|q ps] Hlen;
    try discriminate; simpl in *.
  - reflexivity.
  - injection Hlen as Hlen. rewrite (IH ps Hlen).
    destruct q; [destruct (String.eqb (Stock_Code r) c)|]; reflexivity.
Qed.

(** The realized profit of an entry is the sum of the profits computed at
    the rows of its code. *)
Lemma realized_is_sum_of_profits (txs : list Transaction) (c : string)
    (row0 : Transaction) :
  realized_profit (entry_of (ledger txs) c row0)
  = sumQ (profits_of c txs (sale_profits txs)).
Proof.
  induction txs as [|row txs IH] using rev_ind.
  - reflexivity.
  - rewrite sale_profits_snoc, profits_of_snoc
      by (unfold sale_profits; now rewrite sale_profits_length).
    unfold sumQ in *. rewrite fold_left_app, <- IH.
    unfold entry_of, profit_at.
    rewrite ledger_snoc, get_ledger_step.
    unfold apply_row, entry_before.
    destruct (String.eqb_spec (Stock_Code row) c) as [Hc|Hc].
    + subst c. destruct (Dict.get (ledger txs) (Stock_Code row)) as [st|];
        destruct (is_buy row); simpl; try reflexivity;
        rewrite String.eqb_refl; reflexivity.
    + destruct (is_buy row); simpl; [reflexivity|].
      apply String.eqb_neq in Hc. now rewrite Hc.
Qed.

(** C7.  Appending a row to the list leaves the profit computed at every
    earlier row as it was: the profits of the longer list are those of the
    original list followed by the one of the new row, and the realized
    profit of a security is the sum of the profits computed at its rows.
    The state after the original rows is not revised either: the new row is
    applied to it, it changes the entry of its own security code only, and
    more generally the rows after a prefix are reduced from the state the
    prefix led to. *)
Theorem append_keeps_earlier_profits (txs : list Transaction)
    (row : Transaction) :
  sale_profits (txs ++ [row]) = sale_profits txs ++ [profit_at (ledger txs) row]
  /\ (forall i, (i < length txs)%nat ->
       nth_error (sale_profits (txs ++ [row])) i = nth_error (sale_profits txs) i)
  /\ (forall c,
       realized_profit (entry_of (ledger (txs ++ [row])) c row)
       = sumQ (profits_of c txs (sale_profits txs)
               ++ profits_of c [row] [profit_at (ledger txs) row]))
  /\ ledger (txs ++ [row]) = ledger_step (ledger txs) row
  /\ (forall c, c <> Stock_Code row ->
       Dict.get (ledger (txs ++ [row])) c = Dict.get (ledger txs) c)
  /\ (forall later, ledger (txs ++ later) = ledger_from (ledger txs) later).
Proof.
  split; [apply sale_profits_snoc|].
  split.
  { intros i Hi. rewrite sale_profits_snoc.
    apply nth_error_app1. unfold sale_profits.
    now rewrite sale_profits_length. }
  split.
  { intros c. rewrite realized_is_sum_of_profits, sale_profits_snoc.
    rewrite profits_of_snoc; [reflexivity|].
    unfold sale_profits. now rewrite sale_profits_length. }
  split; [apply ledger_snoc|].
  split.
  { intros c Hc. rewrite ledger_snoc, get_ledger_step.
    destruct (String.eqb_spec (Stock_Code row) c); congruence. }
  intros later. apply ledger_from_app.
Qed.

(** ** Rows that are not a Buy *)

Lemma is_buy_false (row : Transaction) :
  Type_ row <> "Buy"%string -> is_buy row = false.
Proof. intros H. now apply String.eqb_neq. Qed.

(** C9.  A row whose [Type] is any text other than "Buy" is reduced as a
    Sell: the reduction is the same as for the row with "Sell" in that
    field, the entry of its code has the quantity subtracted from the held
    quantity, the sell revenue and sold quantity accrued and the profit of
    the row added to the realized profit, and a profit is recorded for the
    row.  No text in that field makes the reduction skip the row. *)
Theorem not_buy_is_sell (txs : list Transaction) (row : Transaction) :
  Type_ row <> "Buy"%string ->
  let before := entry_before (ledger txs) row in
  let after := apply_sell row before in
  ledger (txs ++ [row]) = ledger (txs ++ [with_type "Sell" row]) /\
  Dict.get (ledger (txs ++ [row])) (Stock_Code row) = Some after /\
  quantity after = quantity before - Quantity row /\
  total_sell_revenue after =
    total_sell_revenue before
    + (Quantity row * Price row - Fee row - Tax row) /\
  sell_quantity after = sell_quantity before + Quantity row /\
  realized_profit after =
    realized_profit before
    + ((Price row - avg_buy_price before) * Quantity row
       - Fee row - Tax row) /\
  nth_error (sale_profits (txs ++ [row])) (length txs) =
    Some (Some ((Price row - avg_buy_price before) * Quantity row
                - Fee row - Tax row)).
Proof.
  intros Hty before after. pose proof (is_buy_false row Hty) as Hb.
  split.
  { rewrite !ledger_snoc. unfold ledger_step, apply_row, apply_sell.
    rewrite Hb. reflexivity. }
  split.
  { rewrite ledger_snoc, get_ledger_step, String.eqb_refl.
    unfold apply_row. now rewrite Hb. }
  repeat (split; [reflexivity|]).
  rewrite sale_profits_snoc, nth_error_app2;
    unfold sale_profits; rewrite sale_profits_length; [|lia].
  rewrite Nat.sub_diag. unfold profit_at. rewrite Hb. reflexivity.
Qed.

Lemma not_buy_is_sell_witness :
  Type_ (with_type "sell" Sample.tsmc_sell) <> "Buy"%string /\
  ledger ([Sample.tsmc_buy] ++ [with_type "sell" Sample.tsmc_sell]) =
    ledger ([Sample.tsmc_buy] ++ [Sample.tsmc_sell]) /\
  Type_ (with_type "" Sample.tsmc_sell) <> "Buy"%string /\
  ledger ([Sample.tsmc_buy] ++ [with_type "" Sample.tsmc_sell]) =
    ledger ([Sample.tsmc_buy] ++ [Sample.tsmc_sell]).
Proof.
  assert (H1 : Type_ (with_type "sell" Sample.tsmc_sell) <> "Buy"%string)
    by discriminate.
  assert (H2 : Type_ (with_type "" Sample.tsmc_sell) <> "Buy"%string)
    by discriminate.
  split; [exact H1|]. split.
  { exact (proj1 (not_buy_is_sell [Sample.tsmc_buy] _ H1)). }
  split; [exact H2|].
  exact (proj1 (not_buy_is_sell [Sample.tsmc_buy] _ H2)).
Defined.

(** ** The worked example *)

Lemma b64_ledger_step_first (row : B64.Transaction) :
  B64.ledger_step [] row
  = [(B64.Stock_Code row, B64.apply_row row (B64.new_status row))].
Proof. unfold B64.ledger_step. simpl. now rewrite String.eqb_refl. Qed.

Lemma b64_ledger_step_same (row : B64.Transaction) (st : B64.Status) :
  B64.ledger_step [(B64.Stock_Code row, st)] row
  = [(B64.Stock_Code row, B64.apply_row row st)].
Proof.
  unfold B64.ledger_step. simpl. rewrite String.eqb_refl. simpl.
  now rewrite String.eqb_refl.
Qed.

(** C2.  For Buy(1000 at 10, fee 20, tax 0) followed by
    Sell(1000 at 12, fee 20, tax 36) on one security, whatever its code,
    name and dates and whatever the price resolver does, the call returns,
    without touching the resolver, a report of one line with average buy
    price 10.02 (the float nearest to it), realized profit 1924, quantity
    0, cost basis [Total_Cost] 0 and unrealized profit 0.  These are the
    fields of the line, computed in binary64.  The running entry holds the
    same average before [round], and a realized profit of 1924 + 2^-41, the
    second float above 1924 (printed 1924.0000000000005): it is the value
    of [total_realized_profit], and [int] removes the excess on the
    line. *)
Theorem buy_then_sell_example {World : Type}
    (fetch_price : string -> World -> float * World) (w : World)
    (date1 date2 code name1 name2 : string) :
  let txs := [B64.buy_1000_at_10 date1 code name1;
              B64.sell_1000_at_12 date2 code name2] in
  exists line st,
    B64.get_portfolio_summary fetch_price txs w
    = (Some (B64.mkSummary [line] 0 0 0 0 B64.above_1924), w) /\
    B64.Line.Avg_Buy_Price line = B64.f10_02 /\
    B64.Line.Realized_Profit line = 1924%Z /\
    B64.Line.Quantity line = 0%Z /\
    B64.Line.Total_Cost line = 0%Z /\
    B64.Line.Unrealized_Profit line = 0%Z /\
    B64.ledger txs = [(code, st)] /\
    B64.avg_buy_price st = B64.f10_02 /\
    B64.realized_profit st = B64.above_1924 /\
    B64.f10_02 = (1002 / 100)%float /\
    (exists q, B64.exact B64.above_1924 = Some q /\ q == 1924 + (1 # 2 ^ 41)).
Proof.
  intros txs.
  set (b := B64.buy_1000_at_10 date1 code name1).
  set (s := B64.sell_1000_at_12 date2 code name2).
  assert (Hledger : B64.ledger txs
                    = [(code, B64.apply_row s (B64.apply_row b (B64.new_status b)))]).
  { unfold txs, B64.ledger. simpl fold_left.
    rewrite b64_ledger_step_first. apply (b64_ledger_step_same s). }
  eexists. eexists.
  split.
  { unfold B64.get_portfolio_summary, txs. fold txs. rewrite Hledger.
    vm_compute. reflexivity. }
  split; [reflexivity|].
  do 4 (split; [reflexivity|]).
  split; [exact Hledger|].
  split; [vm_compute; reflexivity|].
  split; [vm_compute; reflexivity|].
  split; [vm_compute; reflexivity|].
  eexists. split; [vm_compute; reflexivity|]. vm_compute. reflexivity.
Qed.

(** Sample: the rounding shows on a line.  Buy 1000 at 27.5 with fee
    39.1875, then sell 1000 at 32.5 with fee 46.3125 and tax 97.5: the
    average 27.5391875 is not a float, the realized profit comes out just
    below the 4817 of exact arithmetic, and the line shows 4816. *)
Example rounding_on_the_line :
  let buy :=
    B64.mkTransaction "2024-03-01" "2330.TW" "TSMC" "Buy" 1000 27.5 39.1875 0 in
  let sell :=
    B64.mkTransaction "2024-03-08" "2330.TW" "TSMC" "Sell" 1000 32.5 46.3125
      97.5 in
  option_map (fun s => map B64.Line.Realized_Profit (B64.result s))
    (fst (B64.get_portfolio_summary (fun _ (w : unit) => (0%float, w))
            [buy; sell] tt))
  = Some [4816%Z].
Proof. vm_compute. reflexivity. Qed.

(** ** The report *)

Lemma fold_accumulate (ls : list Locals) (acc : Summary) :
  let s := fold_left accumulate ls acc in
  result s = result acc ++ map line_of ls /\
  total_quantity s =
    fold_left Qplus (map (fun l => quantity (l_data l)) ls) (total_quantity acc) /\
  total_cost s = fold_left Qplus (map current_cost ls) (total_cost acc) /\
  total_market_value s =
    fold_left Qplus (map market_value ls) (total_market_value acc) /\
  total_unrealized_profit s =
    fold_left Qplus (map unrealized_profit ls) (total_unrealized_profit acc) /\
  total_realized_profit s =
    fold_left Qplus (map (fun l => realized_profit (l_data l)) ls)
      (total_realized_profit acc).
Proof.
  revert acc. induction ls as [|l ls IH]; intros acc; simpl.
  - rewrite app_nil_r. repeat split; reflexivity.
  - destruct (IH (accumulate acc l)) as (H1 & H2 & H3 & H4 & H5 & H6).
    rewrite H1, H2, H3, H4, H5, H6. simpl.
    rewrite <- app_assoc. repeat split; reflexivity.
Qed.

(** The second loop is the accumulation of the local variables of its
    iterations, and threads the resolver through them. *)
Lemma summary_loop_iterations (env : Env) (d : Dict.t) (acc : Summary)
    (w : World) :
  summary_loop env d (acc, w) =
  (fold_left accumulate (iterations env d w) acc, world_after env d w).
Proof.
  unfold summary_loop. revert acc w.
  induction d as [|[full_code data] d IH]; intros acc w; simpl.
  - reflexivity.
  - destruct (price_of env full_code data w) as [p w1]. simpl. apply IH.
Qed.

Lemma summary_unfold (env : Env) (txs : list Transaction) (w : World) :
  get_portfolio_summary env txs w =
  (fold_left accumulate (iterations env (ledger txs) w) empty_summary,
   world_after env (ledger txs) w).
Proof.
  destruct txs as [|row txs]; [reflexivity|].
  unfold get_portfolio_summary. apply summary_loop_iterations.
Qed.

Lemma iterations_items (env : Env) (d : Dict.t) (w : World) :
  map (fun l => (l_full_code l, l_data l)) (iterations env d w) = d.
Proof.
  revert w. induction d as [|[full_code data] d IH]; intros w; simpl.
  - reflexivity.
  - destruct (price_of env full_code data w) as [p w1]. simpl. now rewrite IH.
Qed.

(** C4, as amended.  Each of [total_cost], [total_market_value],
    [total_unrealized_profit] and [total_realized_profit] is the sum, over
    the holdings in report order, of the value the iteration computed for
    the holding before truncation ([current_cost], [market_value],
    [unrealized_profit], the entry's [realized_profit]); the line fields
    [Total_Cost], [Market_Value], [Unrealized_Profit] and [Realized_Profit]
    are these values truncated toward zero.  For the empty list the report
    has no line and every total is 0. *)
Theorem totals_sum_untruncated_values (env : Env) (txs : list Transaction)
    (w : World) :
  let s := fst (get_portfolio_summary env txs w) in
  let ls := iterations env (ledger txs) w in
  result s = map line_of ls /\
  total_cost s = sumQ (map current_cost ls) /\
  total_market_value s = sumQ (map market_value ls) /\
  total_unrealized_profit s = sumQ (map unrealized_profit ls) /\
  total_realized_profit s =
    sumQ (map (fun l => realized_profit (l_data l)) ls) /\
  Forall (fun l =>
            Line.Total_Cost (line_of l) = Py.int (current_cost l) /\
            Line.Market_Value (line_of l) = Py.int (market_value l) /\
            Line.Unrealized_Profit (line_of l) = Py.int (unrealized_profit l) /\
            Line.Realized_Profit (line_of l)
              = Py.int (realized_profit (l_data l))) ls /\
  get_portfolio_summary env [] w = (mkSummary [] 0 0 0 0 0, w).
Proof.
  intros s ls. unfold s. rewrite summary_unfold. simpl fst. fold ls.
  destruct (fold_accumulate ls empty_summary) as (H1 & _ & H3 & H4 & H5 & H6).
  repeat split; try assumption.
  apply Forall_forall. intros l _. repeat split; reflexivity.
Qed.

(** C4, as stated, fails: after buying 1000 at 10 (fee 125) and selling
    1000 at 12.5 (fee 20, tax 37.5), [total_realized_profit] is 2317.5 while
    the only line has [Realized_Profit] 2317. *)
Lemma totals_are_not_line_sums :
  let s := fst (get_portfolio_summary Sample.silent
                  [Sample.exit_buy; Sample.exit_sell] Sample.fresh) in
  total_realized_profit s == 2317.5 /\
  sum_lines Line.Realized_Profit (result s) = 2317%Z /\
  ~ totals_are_line_sums s.
Proof.
  split; [vm_compute; reflexivity|].
  split; [vm_compute; reflexivity|].
  intros (_ & _ & _ & H). vm_compute in H. discriminate.
Qed.

(** ** Holdings that are not held any more *)

Lemma price_of_not_held (env : Env) (code : string) (data : Status)
    (w : World) :
  quantity data <= 0 -> price_of env code data w = (0, w).
Proof.
  intros Hq. unfold price_of. apply gt_false in Hq. now rewrite Hq.
Qed.

Lemma world_after_held (env : Env) (d : Dict.t) (w : World) :
  world_after env d w = fetch_each env (map fst (List.filter held d)) w.
Proof.
  unfold fetch_each. revert w.
  induction d as [|[code data] d IH]; intros w; simpl; [reflexivity|].
  unfold held at 1, price_of. simpl.
  destruct (Py.gt (quantity data) 0); simpl.
  - destruct (fetch_stock_info env code w) as [info w1]. simpl. apply IH.
  - apply IH.
Qed.

Lemma iterations_nth (env : Env) (d : Dict.t) (w : World) (i : nat)
    (code : string) (data : Status) :
  nth_error d i = Some (code, data) ->
  exists w0,
    nth_error (iterations env d w) i
    = Some (locals_of code data (fst (price_of env code data w0))).
Proof.
  revert w i. induction d as [|[c0 d0] d IH]; intros w i Hnth.
  - destruct i; discriminate.
  - simpl. destruct (price_of env c0 d0 w) as [p w1] eqn:Hp.
    destruct i as [|i]; simpl in *.
    + injection Hnth as -> ->. exists w. now rewrite Hp.
    + apply (IH w1 i Hnth).
Qed.

Lemma int_mul_zero (x : Q) : Py.int (x * 0) = 0%Z.
Proof. unfold Py.int. simpl. now rewrite Z.mul_0_r. Qed.

(** The keys of the dictionary stay distinct. *)

Lemma keys_alter (f : Status -> Status) (k : string) (d : Dict.t) :
  Dict.keys (Dict.alter f k d) = Dict.keys d.
Proof.
  unfold Dict.keys. induction d as [|[k0 v] d IH]; simpl; [reflexivity|].
  destruct (String.eqb k0 k); simpl; [reflexivity | now rewrite IH].
Qed.

Lemma get_none_not_key (d : Dict.t) (k : string) :
  Dict.get d k = None -> ~ In k (Dict.keys d).
Proof.
  unfold Dict.keys. induction d as [|[k0 v] d IH]; simpl; [tauto|].
  destruct (String.eqb_spec k0 k) as [->|Hne]; [discriminate|].
  intros Hget [Heq|Hin]; [congruence | now apply IH].
Qed.

Lemma ledger_step_nodup (d : Dict.t) (row : Transaction) :
  NoDup (Dict.keys d) -> NoDup (Dict.keys (ledger_step d row)).
Proof.
  intros Hd. unfold ledger_step, Dict.mem. rewrite keys_alter.
  destruct (Dict.get d (Stock_Code row)) eqn:Hget; simpl; [exact Hd|].
  unfold Dict.add_new, Dict.keys. rewrite map_app. simpl.
  apply NoDup_app. split; [exact Hd|]. split; [|apply NoDup_singleton].
  intros k Hk Hin. apply list_elem_of_In in Hk, Hin.
  destruct Hin as [<-|[]]. now apply (get_none_not_key d (Stock_Code row)).
Qed.

Lemma ledger_nodup (txs : list Transaction) : NoDup (Dict.keys (ledger txs)).
Proof.
  unfold ledger.
  assert (Hnil : NoDup (Dict.keys [])) by constructor.
  revert Hnil. generalize (@nil (string * Status)).
  induction txs as [|row txs IH]; intros d Hd; simpl; [exact Hd|].
  apply IH. now apply ledger_step_nodup.
Qed.

Lemma nodup_keys_value (d : Dict.t) (k : string) (v v' : Status) :
  NoDup (Dict.keys d) -> In (k, v) d -> In (k, v') d -> v = v'.
Proof.
  unfold Dict.keys. induction d as [|[k0 v0] d IH]; simpl; [tauto|].
  intros Hnd. inversion Hnd as [|? ? Hnotin Hnd']; subst.
  intros [H1|H1] [H2|H2].
  - congruence.
  - exfalso. apply Hnotin, list_elem_of_In. injection H1 as -> _.
    change k with (fst (k, v')). now apply in_map.
  - exfalso. apply Hnotin, list_elem_of_In. injection H2 as -> _.
    change k with (fst (k, v)). now apply in_map.
  - now apply IH.
Qed.

Lemma not_held_not_fetched (d : Dict.t) (i : nat) (code : string)
    (data : Status) :
  NoDup (Dict.keys d) ->
  nth_error d i = Some (code, data) ->
  quantity data <= 0 ->
  ~ In code (map fst (List.filter held d)).
Proof.
  intros Hnd Hnth Hq Hin.
  apply in_map_iff in Hin as ([c data'] & Hc & Hin). simpl in Hc. subst c.
  apply filter_In in Hin as [Hin Hheld].
  apply nth_error_In in Hnth.
  rewrite (nodup_keys_value d code data' data Hnd Hin Hnth) in Hheld.
  unfold held in Hheld. simpl in Hheld. apply gt_false in Hq. congruence.
Qed.

(** C5, as amended.  For a security whose reduced quantity is zero or
    negative, the iteration asks the resolver nothing: the price lookup
    returns 0 and leaves the resolver as it is, and over the whole summary
    the resolver is called for the held securities only, of which this one
    is none.  The line of the security has [Current_Price], [Market_Value]
    and [Unrealized_Profit] 0; its [Realized_Profit] is the accumulated
    realized profit truncated toward zero, and [total_realized_profit] is
    the sum of the accumulated realized profits, untruncated, this one
    included. *)
Theorem exited_holding_not_priced (env : Env) (txs : list Transaction)
    (w : World) (i : nat) (code : string) (data : Status) :
  nth_error (ledger txs) i = Some (code, data) ->
  quantity data <= 0 ->
  let s := fst (get_portfolio_summary env txs w) in
  let w' := snd (get_portfolio_summary env txs w) in
  (forall w0, price_of env code data w0 = (0, w0)) /\
  w' = fetch_each env (map fst (List.filter held (ledger txs))) w /\
  ~ In code (map fst (List.filter held (ledger txs))) /\
  (exists line,
     nth_error (result s) i = Some line /\
     Line.Full_Code line = code /\
     Line.Current_Price line == 0 /\
     Line.Market_Value line = 0%Z /\
     Line.Unrealized_Profit line = 0%Z /\
     Line.Realized_Profit line = Py.int (realized_profit data)) /\
  total_realized_profit s =
    sumQ (map (fun item => realized_profit (snd item)) (ledger txs)).
Proof.
  intros Hnth Hq s w'. unfold s, w'. rewrite summary_unfold. simpl fst. simpl snd.
  split; [intros w0; now apply price_of_not_held|].
  split; [apply world_after_held|].
  split; [apply (not_held_not_fetched _ i code data (ledger_nodup txs) Hnth Hq)|].
  set (ls := iterations env (ledger txs) w).
  destruct (fold_accumulate ls empty_summary) as (H1 & _ & _ & _ & _ & H6).
  split.
  - destruct (iterations_nth env _ w i code data Hnth) as [w0 Hl].
    rewrite (price_of_not_held env code data w0 Hq) in Hl. simpl in Hl.
    exists (line_of (locals_of code data 0)).
    split; [rewrite H1; simpl; now apply map_nth_error|].
    split; [reflexivity|].
    split; [reflexivity|].
    split; [apply int_mul_zero|].
    split; [|reflexivity].
    simpl. apply gt_false in Hq. now rewrite Hq.
  - rewrite H6. unfold sumQ. simpl. f_equal.
    rewrite <- (iterations_items env (ledger txs) w) at 1. fold ls.
    rewrite map_map. reflexivity.
Qed.

Lemma exited_holding_not_priced_witness :
  exists data,
    nth_error (ledger [Sample.exit_buy; Sample.exit_sell]) 0
      = Some ("2317.TW"%string, data) /\
    quantity data <= 0 /\
    snd (get_portfolio_summary Sample.silent
           [Sample.exit_buy; Sample.exit_sell] Sample.fresh) = Sample.fresh /\
    exists line,
      nth_error (result (fst (get_portfolio_summary Sample.silent
                  [Sample.exit_buy; Sample.exit_sell] Sample.fresh))) 0
        = Some line /\
      Line.Realized_Profit line = 2317%Z.
Proof.
  eexists.
  assert (Hnth : nth_error (ledger [Sample.exit_buy; Sample.exit_sell]) 0
                 = Some ("2317.TW"%string,
                         apply_row Sample.exit_sell
                           (apply_row Sample.exit_buy
                              (new_status Sample.exit_buy))))
    by reflexivity.
  assert (Hq : quantity (apply_row Sample.exit_sell
                           (apply_row Sample.exit_buy
                              (new_status Sample.exit_buy))) <= 0)
    by (vm_compute; discriminate).
  destruct (exited_holding_not_priced Sample.silent
              [Sample.exit_buy; Sample.exit_sell] Sample.fresh 0 _ _ Hnth Hq)
    as (_ & Hw & _ & (line & Hline & _ & _ & _ & _ & Hrp) & _).
  split; [exact Hnth|]. split; [exact Hq|]. split; [exact Hw|].
  exists line. split; [exact Hline|]. rewrite Hrp. reflexivity.
Defined.

(** C5, as stated, fails: after buying 1000 at 10 (fee 125) and selling
    1000 at 12.5 (fee 20, tax 37.5) the security is held no more, its
    accumulated realized profit is 2317.5, and its line shows 2317. *)
Lemma exited_line_truncates_realized_profit :
  exists data line,
    ledger [Sample.exit_buy; Sample.exit_sell] = [("2317.TW"%string, data)] /\
    quantity data <= 0 /\
    result (fst (get_portfolio_summary Sample.silent
                   [Sample.exit_buy; Sample.exit_sell] Sample.fresh))
      = [line] /\
    realized_profit data == 2317.5 /\
    Line.Realized_Profit line = 2317%Z /\
    ~ inject_Z (Line.Realized_Profit line) == realized_profit data.
Proof.
  eexists. eexists.
  split; [reflexivity|].
  split; [vm_compute; discriminate|].
  split; [reflexivity|].
  split; [vm_compute; reflexivity|].
  split; [vm_compute; reflexivity|].
  vm_compute. discriminate.
Qed.

(** ** The price resolver *)

Lemma round_half_even_proper (x y : Q) :
  x == y -> Py.round_half_even x = Py.round_half_even y.
Proof.
  intros Hxy. unfold Py.round_half_even, Py.lt, Py.gt.
  rewrite (Qfloor_comp x y Hxy).
  assert (Hr : x - inject_Z (Qfloor y) == y - inject_Z (Qfloor y))
    by (rewrite Hxy; reflexivity).
  rewrite (Qleb_comp _ _ (Qeq_refl (1 # 2)) _ _ Hr).
  rewrite (Qleb_comp _ _ Hr _ _ (Qeq_refl (1 # 2))).
  reflexivity.
Qed.

Lemma round2_proper (x y : Q) : x == y -> Py.round2 x = Py.round2 y.
Proof.
  intros Hxy. unfold Py.round2.
  rewrite (round_half_even_proper (x * 100) (y * 100)); [reflexivity|].
  now rewrite Hxy.
Qed.

(** A resolution below the cache test goes through the tiers in order,
    stores what it returns under the time that was read, and returns the
    price rounded. *)
Lemma fetch_fresh_tiers (env : Env) (full_code code market_key : string)
    (entries : gmap string CacheEntry.t) (prices : gmap string Q) (now : Q)
    (tr : list event) :
  let r := fetch_fresh env full_code code market_key entries prices now tr in
  let answer :=
    yf_history env (tr ++ [EvLoadNames; EvSnapshot full_code]) full_code in
  Info.price (fst r) = Py.round2 (tier_price prices answer full_code) /\
  Info.name (fst r)
    = default "未知名稱"%string (load_stock_names env tr !! (code, market_key)) /\
  cache (snd r) = Some (<[full_code := CacheEntry.mk now (fst r)]> entries) /\
  google_sheets_prices (snd r) = Some prices /\
  trace (snd r) = tr ++ tier_events prices full_code.
Proof.
  intros r answer. unfold r, fetch_fresh, tier_price, tier_events, snapshot_value.
  rewrite <- !app_assoc. simpl app. fold answer.
  assert (Hlook : (if decide (prices = ∅) then 0
                   else default 0 (prices !! full_code))
                  = default 0 (prices !! full_code)).
  { destruct (decide (prices = ∅)) as [->|_]; [|reflexivity].
    now rewrite lookup_empty. }
  rewrite Hlook. clear Hlook.
  destruct (prices !! full_code) as [p|]; simpl.
  - destruct (Py.eq p 0) eqn:Hp.
    + apply eq_true in Hp.
      destruct answer; simpl; rewrite <- ?app_assoc; simpl;
        repeat split; try reflexivity.
      now apply round2_proper.
    + simpl. repeat split; reflexivity.
  - destruct answer; simpl; rewrite <- ?app_assoc; simpl;
      repeat split; reflexivity.
Qed.

(** Without an unexpired entry the call is a resolution through the tiers. *)
Lemma fetch_resolves (env : Env) (full_code : string) (w : World) :
  let now := time_time env (trace w) in
  ~ unexpired w now full_code ->
  let prices := default ∅ (google_sheets_prices w) in
  let answer :=
    yf_history env (trace w ++ [EvTime; EvLoadNames; EvSnapshot full_code])
      full_code in
  let r := fetch_stock_info env full_code w in
  Info.price (fst r) = Py.round2 (tier_price prices answer full_code) /\
  cache (snd r)
    = Some (<[full_code := CacheEntry.mk now (fst r)]> (default ∅ (cache w))) /\
  trace (snd r) = trace w ++ [EvTime] ++ tier_events prices full_code.
Proof.
  intros now Hexp prices answer r.
  assert (Hr : r = fetch_fresh env full_code (Py.before_dot full_code)
                     (if Py.endswith full_code ".TWO"
                      then "TWO"%string else "TWSE"%string)
                     (default ∅ (cache w)) prices now (trace w ++ [EvTime])).
  { unfold r, fetch_stock_info. fold now. fold prices.
    destruct (default ∅ (cache w) !! full_code) as [entry|] eqn:Hentry;
      [|reflexivity].
    destruct (Py.lt (now - CacheEntry.timestamp entry) 1800) eqn:Hlt;
      [|reflexivity].
    exfalso. apply Hexp. exists entry. split; [exact Hentry|].
    now apply lt_true. }
  destruct (fetch_fresh_tiers env full_code (Py.before_dot full_code)
              (if Py.endswith full_code ".TWO"
               then "TWO"%string else "TWSE"%string)
              (default ∅ (cache w)) prices now (trace w ++ [EvTime]))
    as (Hprice & _ & Hcache & _ & Htrace).
  rewrite <- Hr in Hprice, Hcache, Htrace.
  rewrite <- app_assoc in Hprice. simpl app in Hprice. fold answer in Hprice.
  split; [exact Hprice|]. split; [exact Hcache|].
  rewrite Htrace. now rewrite <- app_assoc.
Qed.

(** C3.  When the cache has no unexpired entry for the code, the price is
    resolved through the tiers in this order: the snapshot is read and its
    value is the price when the code is in it with a non-zero value;
    otherwise the fallback provider is asked for the last close, and a
    failure or an empty answer makes the price 0.  The result, with the
    price rounded to 2 decimal places, is stored in the cache under the
    time read at the start of the call, and returned.  The call returns a
    result in every case, also when the provider raises. *)
Theorem resolution_order (env : Env) (full_code : string) (w : World) :
  let now := time_time env (trace w) in
  ~ unexpired w now full_code ->
  let prices := default ∅ (google_sheets_prices w) in
  let answer :=
    yf_history env (trace w ++ [EvTime; EvLoadNames; EvSnapshot full_code])
      full_code in
  let r := fetch_stock_info env full_code w in
  Info.price (fst r) = Py.round2 (tier_price prices answer full_code) /\
  cache (snd r)
    = Some (<[full_code := CacheEntry.mk now (fst r)]> (default ∅ (cache w))) /\
  default ∅ (cache (snd r)) !! full_code = Some (CacheEntry.mk now (fst r)) /\
  trace (snd r) = trace w ++ [EvTime] ++ tier_events prices full_code /\
  (snapshot_value prices full_code = None ->
   answer = YfRaise \/ answer = YfEmpty -> Info.price (fst r) == 0).
Proof.
  intros now Hexp prices answer r.
  destruct (fetch_resolves env full_code w Hexp) as (Hprice & Hcache & Htrace).
  fold now prices answer r in Hprice, Hcache, Htrace.
  split; [exact Hprice|]. split; [exact Hcache|].
  split; [rewrite Hcache; simpl; apply lookup_insert_eq|].
  split; [exact Htrace|].
  intros Hsnap Hanswer. rewrite Hprice. unfold tier_price. rewrite Hsnap.
  destruct Hanswer as [-> | ->]; reflexivity.
Qed.

Lemma resolution_order_witness :
  ~ unexpired Sample.snapshot_only 0 "2330.TW" /\
  Info.price (fst (fetch_stock_info Sample.silent "2330.TW"
                     Sample.snapshot_only)) == 600.13 /\
  ~ unexpired Sample.fresh 0 "2454.TW" /\
  Info.price (fst (fetch_stock_info Sample.after_29_minutes "2454.TW"
                     Sample.fresh)) == 512.34 /\
  Info.price (fst (fetch_stock_info Sample.silent "2454.TW"
                     Sample.fresh)) == 0.
Proof.
  assert (H1 : ~ unexpired Sample.snapshot_only 0 "2330.TW").
  { intros (entry & Hentry & _). vm_compute in Hentry. discriminate. }
  assert (H2 : ~ unexpired Sample.fresh 0 "2454.TW").
  { intros (entry & Hentry & _). vm_compute in Hentry. discriminate. }
  split; [exact H1|]. split.
  { rewrite (proj1 (resolution_order Sample.silent "2330.TW"
                      Sample.snapshot_only H1)).
    vm_compute. reflexivity. }
  split; [exact H2|]. split.
  { rewrite (proj1 (resolution_order Sample.after_29_minutes "2454.TW"
                      Sample.fresh H2)).
    vm_compute. reflexivity. }
  rewrite (proj1 (resolution_order Sample.silent "2454.TW" Sample.fresh H2)).
  vm_compute. reflexivity.
Defined.

(** C6.  Let the cache hold, for a code, the result [info] of a resolution
    made at time [T].  A request at a time [now] with [now - T < 1800]
    returns [info] itself; it reads the clock and nothing else (neither the
    name directory, nor the snapshot, nor the fallback provider) and leaves
    the cache as it is.  A request with [now - T >= 1800] resolves the price
    afresh through the tiers, and caches the new result under [now]. *)
Theorem cache_window (env : Env) (full_code : string) (w : World) (T : Q)
    (info : Info.t) :
  default ∅ (cache w) !! full_code = Some (CacheEntry.mk T info) ->
  let now := time_time env (trace w) in
  let prices := default ∅ (google_sheets_prices w) in
  let answer :=
    yf_history env (trace w ++ [EvTime; EvLoadNames; EvSnapshot full_code])
      full_code in
  let r := fetch_stock_info env full_code w in
  (now - T < 1800 ->
     fst r = info /\
     trace (snd r) = trace w ++ [EvTime] /\
     cache (snd r) = Some (default ∅ (cache w))) /\
  (1800 <= now - T ->
     Info.price (fst r) = Py.round2 (tier_price prices answer full_code) /\
     trace (snd r) = trace w ++ [EvTime] ++ tier_events prices full_code /\
     cache (snd r)
       = Some (<[full_code := CacheEntry.mk now (fst r)]>
                 (default ∅ (cache w)))).
Proof.
  intros Hentry now prices answer r. split.
  - intros Hlt. unfold r, fetch_stock_info. rewrite Hentry. simpl.
    fold now. apply lt_true in Hlt. rewrite Hlt. simpl.
    repeat split; reflexivity.
  - intros Hge.
    assert (Hexp : ~ unexpired w now full_code).
    { intros (entry & Hentry' & Hlt). rewrite Hentry in Hentry'.
      injection Hentry' as <-. simpl in Hlt. lra. }
    destruct (fetch_resolves env full_code w Hexp)
      as (Hprice & Hcache & Htrace).
    repeat split; assumption.
Qed.

Lemma cache_window_witness :
  default ∅ (cache Sample.cached_at_0) !! "2330.TW"%string
    = Some (CacheEntry.mk 0 (Info.mk 600.13 "TSMC")) /\
  fst (fetch_stock_info Sample.after_29_minutes "2330.TW" Sample.cached_at_0)
    = Info.mk 600.13 "TSMC" /\
  Info.price
    (fst (fetch_stock_info Sample.after_31_minutes "2330.TW"
            Sample.cached_at_0)) == 601.
Proof.
  assert (H : default ∅ (cache Sample.cached_at_0) !! "2330.TW"%string
              = Some (CacheEntry.mk 0 (Info.mk 600.13 "TSMC")))
    by (vm_compute; reflexivity).
  split; [exact H|]. split.
  - apply (proj1 (cache_window Sample.after_29_minutes "2330.TW"
                    Sample.cached_at_0 0 (Info.mk 600.13 "TSMC") H)).
    vm_compute. reflexivity.
  - assert (Hge : 1800 <= 1860 - 0) by (vm_compute; discriminate).
    rewrite (proj1 (proj2 (cache_window Sample.after_31_minutes "2330.TW"
                             Sample.cached_at_0 0 (Info.mk 600.13 "TSMC") H)
                      Hge)).
    vm_compute. reflexivity.
Defined.

(** ** The entry path *)

Lemma mod_zero_multiple (q : Q) :
  Py.mod_ q 1000 == 0 <-> exists k : Z, q == 1000 * inject_Z k.
Proof.
  unfold Py.mod_. split.
  - intros H. exists (Qfloor (q / 1000)). lra.
  - intros [k Hk].
    assert (Hdiv : q / 1000 == inject_Z k) by (rewrite Hk; field).
    rewrite (Qfloor_comp _ _ Hdiv), Qfloor_Z. lra.
Qed.

Section EntryFacts.

Variable strip : string -> string.
Variable float : string -> option Q.
Variable default_date : string.

(** What the validation has checked when it builds a row. *)
Lemma validate_accepts (f : Form) (row : Transaction) :
  validate strip float default_date f = inr row ->
  exists q p,
    blank (form_quantity f) = false /\
    float (default ""%string (form_quantity f)) = Some q /\
    0 < q /\ Py.mod_ q 1000 == 0 /\
    blank (form_price f) = false /\
    float (default ""%string (form_price f)) = Some p /\
    0 < p /\
    Quantity row = q /\ Price row = p /\
    Type_ row = default "Buy"%string (form_type f) /\
    Fee row = Py.max 20 (p * q * 0.001425) /\
    Tax row = if String.eqb (Type_ row) "Sell" then p * q * 0.003 else 0.
Proof.
  unfold validate.
  destruct (blank (Some (strip (default ""%string (form_code f)))));
    [discriminate|].
  destruct (blank (form_quantity f)); [discriminate|].
  destruct (float (default ""%string (form_quantity f))) as [q|];
    [|discriminate].
  destruct (Py.le q 0) eqn:Hq; [discriminate|].
  destruct (Py.ne (Py.mod_ q 1000) 0) eqn:Hm; [discriminate|].
  destruct (blank (form_price f)); [discriminate|].
  destruct (float (default ""%string (form_price f))) as [p|];
    [|discriminate].
  destruct (Py.le p 0) eqn:Hp; [discriminate|].
  intros [= <-]. exists q, p.
  apply le_false in Hq. apply le_false in Hp. apply ne_false in Hm.
  repeat split; try reflexivity; assumption.
Qed.

(** What makes the validation set an error. *)
Lemma validate_rejects (f : Form) :
  blank (form_quantity f) = true \/
  (exists q, float (default ""%string (form_quantity f)) = Some q /\
             (q <= 0 \/ ~ exists k : Z, q == 1000 * inject_Z k)) \/
  blank (form_price f) = true \/
  (exists p, float (default ""%string (form_price f)) = Some p /\ p <= 0) ->
  exists e, validate strip float default_date f = inl e.
Proof.
  intros Hbad.
  destruct (validate strip float default_date f) as [e|row] eqn:Hv;
    [now exists e|].
  exfalso.
  destruct (validate_accepts f row Hv)
    as (q & p & Hbq & Hfq & Hq & Hm & Hbp & Hfp & Hp & _).
  destruct Hbad as [Hb | [(q' & Hfq' & Hq') | [Hb | (p' & Hfp' & Hp')]]].
  - congruence.
  - rewrite Hfq in Hfq'. injection Hfq' as <-.
    destruct Hq' as [Hle | Hnot]; [lra|].
    apply Hnot. now apply mod_zero_multiple.
  - congruence.
  - rewrite Hfp in Hfp'. injection Hfp' as <-. lra.
Qed.

Lemma add_transaction_cases (f : Form) (client appended : bool)
    (sheet : list Transaction) :
  let r := add_transaction strip float default_date f client appended sheet in
  (exists e, fst r = Some e /\ snd r = sheet) \/
  (exists row, validate strip float default_date f = inr row /\
               fst r = None /\ snd r = sheet ++ [row]).
Proof.
  unfold add_transaction.
  destruct (validate strip float default_date f) as [e|row]; simpl.
  - left. now exists e.
  - destruct client, appended; simpl;
      try (left; eexists; split; reflexivity).
    right. now exists row.
Qed.

End EntryFacts.

(** C8.  A submission whose quantity is missing, not positive or not a
    multiple of 1000, or whose price is missing or not positive, ends with
    an error and leaves the sheet as it was.  The sheet changes only by
    gaining, at its end, a row whose quantity was read from the form as a
    positive multiple of 1000 and whose price was read as a positive number,
    and then no error is set.  The reduction checks nothing again: whatever
    the quantity and price of a row, it is applied to the entry of its
    code. *)
Theorem entry_validation (strip : string -> string)
    (float : string -> option Q) (default_date : string) (f : Form)
    (client appended : bool) (sheet : list Transaction) :
  let r := add_transaction strip float default_date f client appended sheet in
  ((blank (form_quantity f) = true \/
    (exists q, float (default ""%string (form_quantity f)) = Some q /\
               (q <= 0 \/ ~ exists k : Z, q == 1000 * inject_Z k)) \/
    blank (form_price f) = true \/
    (exists p, float (default ""%string (form_price f)) = Some p /\ p <= 0)) ->
   (exists e, fst r = Some e) /\ snd r = sheet) /\
  (((exists e, fst r = Some e) /\ snd r = sheet) \/
   (exists row q p,
      fst r = None /\ snd r = sheet ++ [row] /\
      blank (form_quantity f) = false /\
      float (default ""%string (form_quantity f)) = Some q /\
      0 < q /\ (exists k : Z, q == 1000 * inject_Z k) /\
      blank (form_price f) = false /\
      float (default ""%string (form_price f)) = Some p /\
      0 < p /\
      Quantity row = q /\ Price row = p)) /\
  (forall txs row,
     Dict.get (ledger (txs ++ [row])) (Stock_Code row)
     = Some (apply_row row (entry_before (ledger txs) row)) /\
     quantity (apply_row row (entry_before (ledger txs) row))
     = if is_buy row
       then quantity (entry_before (ledger txs) row) + Quantity row
       else quantity (entry_before (ledger txs) row) - Quantity row).
Proof.
  intros r. subst r. split; [|split].
  - intros Hbad.
    destruct (validate_rejects strip float default_date f Hbad) as [e He].
    unfold add_transaction. rewrite He. simpl.
    split; [now exists e|reflexivity].
  - destruct (add_transaction_cases strip float default_date f client appended
                sheet) as [(e & He & Hs) | (row & Hv & Hn & Hs)].
    + left. split; [now exists e | exact Hs].
    + right.
      destruct (validate_accepts strip float default_date f row Hv)
        as (q & p & Hbq & Hfq & Hq & Hm & Hbp & Hfp & Hp & HQ & HP & _).
      exists row, q, p. apply mod_zero_multiple in Hm.
      repeat split; assumption.
  - intros txs row. split.
    + rewrite ledger_snoc, get_ledger_step, String.eqb_refl. reflexivity.
    + unfold apply_row. destruct (is_buy row); reflexivity.
Qed.

Lemma entry_validation_witness :
  let submit f := add_transaction (fun s => s) Decimal.float "2024-05-02" f
                    true true [] in
  (exists e, fst (submit (Sample.sell_form (Some "1500"%string)
                            (Some "12.5"%string))) = Some e) /\
  snd (submit (Sample.sell_form (Some "1500"%string) (Some "12.5"%string)))
    = [] /\
  (exists e, fst (submit (Sample.sell_form (Some "1000"%string) None))
             = Some e) /\
  snd (submit (Sample.sell_form (Some "1000"%string) None)) = [].
Proof.
  intros submit.
  assert (Hlot : ~ exists k : Z, 1500 == 1000 * inject_Z k).
  { intros [k Hk]. unfold Qeq in Hk. simpl in Hk. lia. }
  destruct (proj1 (entry_validation (fun s => s) Decimal.float "2024-05-02"
                     (Sample.sell_form (Some "1500"%string)
                        (Some "12.5"%string)) true true []))
    as [He Hs].
  { right. left. exists 1500. split; [reflexivity | right; exact Hlot]. }
  destruct (proj1 (entry_validation (fun s => s) Decimal.float "2024-05-02"
                     (Sample.sell_form (Some "1000"%string) None)
                     true true []))
    as [He' Hs'].
  { right. right. left. reflexivity. }
  repeat split; assumption.
Defined.

(** The refusals on the sample form one by one, and a refused row taken by
    the reduction. *)
Example entry_samples :
  let submit f := add_transaction (fun s => s) Decimal.float "2024-05-02" f
                    true true [] in
  fst (submit (Sample.sell_form None (Some "12.5"%string)))
    = Some ErrQuantity /\
  fst (submit (Sample.sell_form (Some "0"%string) (Some "12.5"%string)))
    = Some ErrQuantity /\
  fst (submit (Sample.sell_form (Some "1500"%string) (Some "12.5"%string)))
    = Some ErrLotSize /\
  fst (submit (Sample.sell_form (Some "1000"%string) None)) = Some ErrPrice /\
  fst (submit (Sample.sell_form (Some "1000"%string) (Some "0"%string)))
    = Some ErrPrice /\
  fst (submit (Sample.sell_form (Some "abc"%string) (Some "12.5"%string)))
    = Some ErrInvalidInput /\
  fst (submit Sample.good_form) = None /\
  exists st, ledger [Sample.odd_row] = [("2330.TW"%string, st)] /\
             quantity st == 1.5.
Proof.
  repeat (split; [vm_compute; reflexivity|]).
  eexists. split; [reflexivity | vm_compute; reflexivity].
Qed.

(** C10.  A row the entry path appends to the sheet has, for the quantity
    [q] and price [p] read from the form, the fee [max(20, q*p*0.001425)]
    and the tax [q*p*0.003] when its type is "Sell", 0 otherwise; so its fee
    is at least 20, and a Buy row has tax 0. *)
Theorem entry_fee_and_tax (strip : string -> string)
    (float : string -> option Q) (default_date : string) (f : Form)
    (client appended : bool) (sheet : list Transaction) (row : Transaction) :
  add_transaction strip float default_date f client appended sheet
    = (None, sheet ++ [row]) ->
  exists q p,
    float (default ""%string (form_quantity f)) = Some q /\
    float (default ""%string (form_price f)) = Some p /\
    Quantity row = q /\ Price row = p /\
    Fee row == Qmax 20 (q * p * 0.001425) /\
    (Type_ row = "Sell"%string -> Tax row == q * p * 0.003) /\
    (Type_ row <> "Sell"%string -> Tax row = 0) /\
    20 <= Fee row /\
    (Type_ row = "Buy"%string -> Tax row = 0).
Proof.
  intros Hadd.
  destruct (add_transaction_cases strip float default_date f client appended
              sheet) as [(e & He & _) | (row' & Hv & _ & Hs)];
    rewrite Hadd in *; simpl in *; [discriminate|].
  apply app_inv_head in Hs. injection Hs as ->.
  destruct (validate_accepts strip float default_date f row' Hv)
    as (q & p & _ & Hfq & _ & _ & _ & Hfp & _ & HQ & HP & _ & Hfee & Htax).
  exists q, p. repeat (split; [assumption|]).
  assert (Hmax : Py.max 20 (p * q * 0.001425) == Qmax 20 (q * p * 0.001425)).
  { unfold Py.max. destruct (Py.gt (p * q * 0.001425) 20) eqn:Hgt.
    - apply gt_true in Hgt. rewrite Q.max_r; lra.
    - apply gt_false in Hgt. rewrite Q.max_l; lra. }
  split; [rewrite Hfee; exact Hmax|].
  split; [intros Hty; rewrite Htax, Hty; simpl; lra|].
  split; [intros Hty; rewrite Htax; apply String.eqb_neq in Hty;
          now rewrite Hty|].
  split; [rewrite Hfee, Hmax; apply Q.le_max_l|].
  intros Hty. rewrite Htax, Hty. reflexivity.
Qed.

Lemma entry_fee_and_tax_witness :
  exists row,
    add_transaction (fun s => s) Decimal.float "2024-05-02" Sample.good_form
      true true [] = (None, [] ++ [row]) /\
    Fee row == 20 /\ Tax row == 37.5.
Proof.
  eexists. split; [vm_compute; reflexivity|].
  match goal with
  | |- Fee ?row == _ /\ _ =>
      destruct (entry_fee_and_tax (fun s => s) Decimal.float "2024-05-02"
                  Sample.good_form true true [] row eq_refl)
        as (q & p & Hq & Hp & _ & _ & Hfee & Htax & _)
  end.
  injection Hq as <-. injection Hp as <-.
  split; [rewrite Hfee | rewrite (Htax eq_refl)]; vm_compute; reflexivity.
Defined.

(** * Properties of the rest of the program *)

(** ** The reduction: entries and their order *)

Lemma rows_of_snoc (c : string) (txs : list Transaction) (row : Transaction) :
  rows_of c (txs ++ [row]) =
  rows_of c txs ++ (if String.eqb (Stock_Code row) c then [row] else []).
Proof. unfold rows_of. now rewrite List.filter_app. Qed.

(** X1.  Securities do not influence each other: the entry of a code after
    all the rows is the entry after the rows of that code alone. *)
Theorem securities_are_independent (txs : list Transaction) (c : string) :
  Dict.get (ledger txs) c = Dict.get (ledger (rows_of c txs)) c.
Proof.
  induction txs as [|row txs IH] using rev_ind; [reflexivity|].
  rewrite rows_of_snoc, ledger_snoc, get_ledger_step.
  destruct (String.eqb_spec (Stock_Code row) c) as [Hc|Hc].
  - rewrite ledger_snoc, get_ledger_step, Hc, String.eqb_refl.
    unfold entry_before. rewrite Hc, IH. reflexivity.
  - rewrite app_nil_r. exact IH.
Qed.

Lemma mem_keys (d : Dict.t) (k : string) :
  Dict.mem d k = existsb (String.eqb k) (Dict.keys d).
Proof.
  unfold Dict.mem, Dict.keys. induction d as [|[k0 v] d IH]; simpl.
  - reflexivity.
  - rewrite (String.eqb_sym k k0).
    destruct (String.eqb k0 k); simpl; [reflexivity | exact IH].
Qed.

Lemma keys_ledger_step (d : Dict.t) (row : Transaction) :
  Dict.keys (ledger_step d row) =
  if existsb (String.eqb (Stock_Code row)) (Dict.keys d) then Dict.keys d
  else Dict.keys d ++ [Stock_Code row].
Proof.
  unfold ledger_step. rewrite keys_alter, mem_keys.
  destruct (existsb (String.eqb (Stock_Code row)) (Dict.keys d)); simpl.
  - reflexivity.
  - unfold Dict.add_new, Dict.keys. now rewrite map_app.
Qed.

Lemma keys_ledger (txs : list Transaction) :
  Dict.keys (ledger txs) = distinct_codes txs.
Proof.
  induction txs as [|row txs IH] using rev_ind; [reflexivity|].
  rewrite ledger_snoc, keys_ledger_step, IH.
  unfold distinct_codes. rewrite fold_left_app. reflexivity.
Qed.

(** X2.  The report has one line per security code of the rows, in the
    order in which the codes first appear; no code has two lines. *)
Theorem one_line_per_code (env : Env) (txs : list Transaction) (w : World) :
  map Line.Full_Code (result (fst (get_portfolio_summary env txs w)))
    = distinct_codes txs /\
  NoDup (distinct_codes txs) /\
  (forall c, In c (distinct_codes txs) <-> In c (map Stock_Code txs)).
Proof.
  split; [|split].
  - rewrite summary_unfold. simpl fst.
    destruct (fold_accumulate (iterations env (ledger txs) w) empty_summary)
      as (H1 & _). rewrite H1. simpl. rewrite map_map. simpl.
    rewrite <- keys_ledger. unfold Dict.keys.
    rewrite <- (iterations_items env (ledger txs) w) at 2.
    now rewrite map_map.
  - rewrite <- keys_ledger. apply ledger_nodup.
  - intros c. rewrite <- keys_ledger.
    induction txs as [|row txs IH] using rev_ind; [reflexivity|].
    rewrite ledger_snoc, keys_ledger_step, map_app, !in_app_iff. simpl.
    destruct (existsb (String.eqb (Stock_Code row)) (Dict.keys (ledger txs)))
      eqn:Hex.
    + rewrite IH. split; [tauto|]. intros [H|[<-|[]]]; [exact H|].
      apply IH. apply existsb_exists in Hex as (k & Hk & Hkeq).
      apply String.eqb_eq in Hkeq. now subst k.
    + rewrite in_app_iff, IH. simpl. tauto.
Qed.

Lemma apply_row_name (row : Transaction) (st : Status) :
  name (apply_row row st) = name st /\ is_otc (apply_row row st) = is_otc st.
Proof. unfold apply_row. destruct (is_buy row); split; reflexivity. Qed.

Lemma ledger_from_first_row (txs : list Transaction) (d : Dict.t) (c : string) :
  match Dict.get d c with
  | Some st0 =>
      exists st, Dict.get (ledger_from d txs) c = Some st /\
                 name st = name st0 /\ is_otc st = is_otc st0
  | None =>
      match find (fun r => String.eqb (Stock_Code r) c) txs with
      | Some r0 =>
          exists st, Dict.get (ledger_from d txs) c = Some st /\
                     name st = Stock_Name r0 /\
                     is_otc st = Py.endswith c ".TWO"
      | None => Dict.get (ledger_from d txs) c = None
      end
  end.
Proof.
  revert d. induction txs as [|row txs IH]; intros d.
  - simpl. destruct (Dict.get d c) as [st0|]; [|reflexivity].
    exists st0. auto.
  - simpl. specialize (IH (ledger_step d row)).
    rewrite get_ledger_step in IH. unfold entry_before in IH.
    destruct (String.eqb_spec (Stock_Code row) c) as [Hc|Hc].
    + rewrite Hc in IH.
      destruct (Dict.get d c) as [st0|];
        destruct IH as (st & Hst & Hname & Hotc); exists st.
      * destruct (apply_row_name row st0) as [Hn Ho].
        rewrite Hst, Hname, Hotc, Hn, Ho. auto.
      * destruct (apply_row_name row (new_status row)) as [Hn Ho].
        rewrite Hst, Hname, Hotc, Hn, Ho. simpl. rewrite Hc. auto.
    + destruct (Dict.get d c) as [st0|]; exact IH.
Qed.

(** X3.  The entry of a security exists exactly when some row has its code,
    and it keeps the name of the first such row, whatever names later rows
    of the code carry; its over-the-counter flag says whether the code ends
    in ".TWO". *)
Theorem entry_named_by_first_row (txs : list Transaction) (c : string) :
  match find (fun r => String.eqb (Stock_Code r) c) txs with
  | Some r0 =>
      exists st, Dict.get (ledger txs) c = Some st /\
                 name st = Stock_Name r0 /\
                 is_otc st = Py.endswith c ".TWO"
  | None => Dict.get (ledger txs) c = None
  end.
Proof. exact (ledger_from_first_row txs [] c). Qed.

Lemma only_buys_zero (txs : list Transaction) (c : string) (st : Status) :
  (forall r, In r txs -> Stock_Code r = c -> Type_ r = "Buy"%string) ->
  Dict.get (ledger txs) c = Some st ->
  realized_profit st = 0 /\ sell_quantity st = 0 /\
  total_sell_revenue st = 0 /\ quantity st = buy_quantity st.
Proof.
  revert st.
  induction txs as [|row txs IH] using rev_ind; intros st Hbuys Hget.
  - discriminate.
  - assert (Hbuys' : forall r, In r txs -> Stock_Code r = c ->
                               Type_ r = "Buy"%string).
    { intros r Hr. apply Hbuys. apply in_or_app. now left. }
    rewrite ledger_snoc, get_ledger_step in Hget.
    destruct (String.eqb_spec (Stock_Code row) c) as [Hc|Hc];
      [|now apply IH].
    injection Hget as <-.
    assert (Hty : is_buy row = true).
    { unfold is_buy. rewrite (Hbuys row); [reflexivity| |exact Hc].
      apply in_or_app. right. now left. }
    unfold apply_row. rewrite Hty. simpl. unfold entry_before.
    rewrite Hc.
    destruct (Dict.get (ledger txs) c) as [st0|] eqn:Hst0.
    + destruct (IH st0 Hbuys' eq_refl) as (Hr & Hs & Hv & Hq).
      repeat split; try assumption. now rewrite Hq.
    + repeat split; reflexivity.
Qed.

(** X5.  A security whose rows are all Buy rows has realized profit 0, sold
    nothing, holds what it bought, and its buy cost is the cost of its
    rows. *)
Theorem only_buys_realize_nothing (txs : list Transaction) (c : string)
    (st : Status) :
  (forall r, In r txs -> Stock_Code r = c -> Type_ r = "Buy"%string) ->
  Dict.get (ledger txs) c = Some st ->
  realized_profit st = 0 /\
  sell_quantity st = 0 /\
  total_sell_revenue st = 0 /\
  quantity st == bought_quantity c txs /\
  total_buy_cost st = bought_cost c txs.
Proof.
  intros Hbuys Hget.
  destruct (only_buys_zero txs c st Hbuys Hget) as (Hr & Hs & Hv & Hq).
  destruct (buy_totals_closed txs c (mkTransaction "" "" "" "" 0 0 0 0))
    as [Hcost Hbought].
  unfold entry_of in Hcost, Hbought. rewrite Hget in Hcost, Hbought.
  repeat split; try assumption.
  rewrite Hq, Hbought. reflexivity.
Qed.

Lemma only_buys_realize_nothing_witness :
  exists st,
    Dict.get (ledger [Sample.tsmc_buy; Sample.exit_buy; Sample.exit_sell])
      "2330.TW" = Some st /\
    realized_profit st = 0 /\ quantity st == 1000.
Proof.
  eexists. split; [reflexivity|].
  assert (H : forall r,
             In r [Sample.tsmc_buy; Sample.exit_buy; Sample.exit_sell] ->
             Stock_Code r = "2330.TW"%string -> Type_ r = "Buy"%string).
  { intros r [<-|[<-|[<-|[]]]] Hc; try reflexivity; discriminate Hc. }
  destruct (only_buys_realize_nothing _ "2330.TW" _ H eq_refl)
    as (Hr & _ & _ & Hq & _).
  split; [exact Hr|]. rewrite Hq. vm_compute. reflexivity.
Defined.

(** ** The resolver: what a call leaves behind *)

(** A call either answers from the cache or resolves afresh. *)
Lemma fetch_cases (env : Env) (c : string) (w : World) :
  let now := time_time env (trace w) in
  let entries := default ∅ (cache w) in
  let prices := default ∅ (google_sheets_prices w) in
  (exists entry,
     entries !! c = Some entry /\
     now - CacheEntry.timestamp entry < 1800 /\
     fetch_stock_info env c w
     = (CacheEntry.data entry,
        {| cache := Some entries;
           google_sheets_prices := Some prices;
           trace := trace w ++ [EvTime] |})) \/
  (~ unexpired w now c /\
   fetch_stock_info env c w
   = fetch_fresh env c (Py.before_dot c)
       (if Py.endswith c ".TWO" then "TWO"%string else "TWSE"%string)
       entries prices now (trace w ++ [EvTime])).
Proof.
  intros now entries prices. unfold fetch_stock_info.
  fold now entries prices.
  destruct (entries !! c) as [entry|] eqn:Hentry.
  - destruct (Py.lt (now - CacheEntry.timestamp entry) 1800) eqn:Hlt.
    + left. exists entry. apply lt_true in Hlt. auto.
    + right. split; [|reflexivity].
      intros (entry' & Hentry' & Hlt'). unfold entries in Hentry.
      rewrite Hentry in Hentry'. injection Hentry' as <-.
      apply lt_false in Hlt. lra.
  - right. split; [|reflexivity].
    intros (entry' & Hentry' & _). unfold entries in Hentry. congruence.
Qed.

Lemma fetch_leaves (env : Env) (c : string) (w : World) :
  let r := fetch_stock_info env c w in
  (forall c', c' <> c ->
     default ∅ (cache (snd r)) !! c' = default ∅ (cache w) !! c') /\
  default ∅ (google_sheets_prices (snd r))
    = default ∅ (google_sheets_prices w) /\
  (exists entry,
     default ∅ (cache (snd r)) !! c = Some entry /\
     CacheEntry.data entry = fst r) /\
  (exists events, trace (snd r) = trace w ++ EvTime :: events).
Proof.
  intros r. unfold r.
  destruct (fetch_cases env c w) as [(entry & Hentry & _ & ->) | [_ ->]].
  - simpl. repeat split; try reflexivity.
    + now exists entry.
    + now exists [].
  - destruct (fetch_fresh_tiers env c (Py.before_dot c)
                (if Py.endswith c ".TWO" then "TWO"%string else "TWSE"%string)
                (default ∅ (cache w)) (default ∅ (google_sheets_prices w))
                (time_time env (trace w)) (trace w ++ [EvTime]))
      as (_ & _ & Hcache & Hprices & Htrace).
    rewrite Hcache, Hprices, Htrace. simpl. repeat split.
    + intros c' Hc'. now apply lookup_insert_ne.
    + eexists. split; [apply lookup_insert_eq | reflexivity].
    + eexists. rewrite <- app_assoc. reflexivity.
Qed.

(** X8.  A call for one code never touches the cache entries of the other
    codes and never changes the price snapshot; when it returns, the cache
    holds an entry for the code that carries the result returned, and the
    clock was read first. *)
Theorem fetch_touches_only_its_entry (env : Env) (c : string) (w : World) :
  let r := fetch_stock_info env c w in
  (forall c', c' <> c ->
     default ∅ (cache (snd r)) !! c' = default ∅ (cache w) !! c') /\
  default ∅ (google_sheets_prices (snd r))
    = default ∅ (google_sheets_prices w) /\
  (exists entry,
     default ∅ (cache (snd r)) !! c = Some entry /\
     CacheEntry.data entry = fst r) /\
  (exists events, trace (snd r) = trace w ++ EvTime :: events).
Proof. apply fetch_leaves. Qed.

(** X9.  A request repeated right after a call returns the same result, and
    reads nothing but the clock, as long as the clock is less than 1800
    seconds past the timestamp the first call left in the cache. *)
Theorem repeated_request (env : Env) (c : string) (w : World) :
  let r1 := fetch_stock_info env c w in
  let r2 := fetch_stock_info env c (snd r1) in
  (forall entry,
     default ∅ (cache (snd r1)) !! c = Some entry ->
     time_time env (trace (snd r1)) - CacheEntry.timestamp entry < 1800) ->
  fst r2 = fst r1 /\
  trace (snd r2) = trace (snd r1) ++ [EvTime] /\
  default ∅ (cache (snd r2)) = default ∅ (cache (snd r1)).
Proof.
  intros r1 r2 Hwindow.
  destruct (fetch_leaves env c w) as (_ & _ & (entry & Hentry & Hdata) & _).
  fold r1 in Hentry, Hdata.
  specialize (Hwindow entry Hentry).
  unfold r2.
  destruct (fetch_cases env c (snd r1))
    as [(entry' & Hentry' & _ & ->) | [Hexp _]].
  - rewrite Hentry in Hentry'. injection Hentry' as <-. simpl.
    split; [exact Hdata|]. split; reflexivity.
  - exfalso. apply Hexp. now exists entry.
Qed.

Lemma repeated_request_witness :
  fst (fetch_stock_info Sample.after_29_minutes "2454.TW"
         (snd (fetch_stock_info Sample.after_29_minutes "2454.TW"
                 Sample.fresh)))
  = fst (fetch_stock_info Sample.after_29_minutes "2454.TW" Sample.fresh).
Proof.
  apply (repeated_request Sample.after_29_minutes "2454.TW" Sample.fresh).
  intros entry Hentry. vm_compute in Hentry. injection Hentry as <-.
  vm_compute. reflexivity.
Defined.

(** ** Reading the transactions *)

Lemma float_or_zero_none (float : string -> option Q) (x : option cell) :
  float_or_zero float x = None <->
  exists s, x = Some (CText s) /\ float s = None.
Proof.
  destruct x as [[q|s]|]; simpl; split; try discriminate.
  - intros (s & H & _). discriminate.
  - intros H. now exists s.
  - intros (s' & [= <-] & H). exact H.
  - intros (s & H & _). discriminate.
Qed.

Lemma read_row_none (float : string -> option Q) (row : SheetRow) :
  read_row float row = None <-> unreadable float row.
Proof.
  unfold read_row, unreadable. split.
  - destruct (float_or_zero float (row_Quantity row)) eqn:Hq.
    + destruct (float_or_zero float (row_Price row)) eqn:Hp.
      * destruct (float_or_zero float (row_Fee row)) eqn:Hf.
        -- destruct (float_or_zero float (row_Tax row)) eqn:Ht;
             [discriminate|].
           intros _. apply float_or_zero_none in Ht as (s & Hs & Hn).
           exists s. tauto.
        -- intros _. apply float_or_zero_none in Hf as (s & Hs & Hn).
           exists s. tauto.
      * intros _. apply float_or_zero_none in Hp as (s & Hs & Hn).
        exists s. tauto.
    + intros _. apply float_or_zero_none in Hq as (s & Hs & Hn).
      exists s. tauto.
  - intros (s & Hn & Hcell).
    assert (Hnone : forall x, x = Some (CText s) ->
                              float_or_zero float x = None).
    { intros x ->. exact Hn. }
    destruct Hcell as [H|[H|[H|H]]]; rewrite (Hnone _ H);
      repeat (destruct (float_or_zero float _)); reflexivity.
Qed.

Lemma read_rows_some (float : string -> option Q) (data : list SheetRow) :
  Forall (fun r => ~ unreadable float r) data ->
  exists ts, read_rows float data = Some ts /\
             map Some ts = map (read_row float) data.
Proof.
  induction 1 as [|row data Hrow _ (ts & Hts & Hmap)]; simpl.
  - now exists [].
  - destruct (read_row float row) as [t|] eqn:Ht.
    + rewrite Hts. exists (t :: ts). simpl. now rewrite Hmap.
    + exfalso. apply Hrow. now apply read_row_none.
Qed.

Lemma read_rows_none (float : string -> option Q) (data : list SheetRow) :
  Exists (unreadable float) data -> read_rows float data = None.
Proof.
  induction 1 as [row data Hrow | row data _ IH]; simpl.
  - apply read_row_none in Hrow. now rewrite Hrow.
  - rewrite IH. now destruct (read_row float row).
Qed.

(** X10.  The transactions are read all or none: when every numeric cell
    is a number or text that [float] accepts, the list has one transaction
    per record, in sheet order, a missing numeric key reading as 0; a
    single cell that [float] refuses, in any record, makes the whole list
    empty, as does a failure to open the worksheet. *)
Theorem transactions_read_all_or_none (float : string -> option Q)
    (data : list SheetRow) :
  (Forall (fun r => ~ unreadable float r) data ->
   map Some (get_transactions_from_google_sheet float (Records data))
   = map (read_row float) data) /\
  (Exists (unreadable float) data ->
   get_transactions_from_google_sheet float (Records data) = []) /\
  get_transactions_from_google_sheet float ReadError = [].
Proof.
  split; [|split].
  - intros Hall. destruct (read_rows_some float data Hall) as (ts & Hts & Hmap).
    simpl. rewrite Hts. exact Hmap.
  - intros Hex. simpl. now rewrite (read_rows_none float data Hex).
  - reflexivity.
Qed.

Lemma transactions_read_all_or_none_witness :
  get_transactions_from_google_sheet Decimal.float
    (Records [Sheet.good_record])
  = [mkTransaction "2024-01-02" "2330.TW" "TSMC" "Buy" 1000 10 20 0] /\
  get_transactions_from_google_sheet Decimal.float
    (Records [Sheet.good_record; Sheet.empty_fee_record]) = [].
Proof.
  split; [reflexivity|].
  apply (proj1 (proj2 (transactions_read_all_or_none Decimal.float
                         [Sheet.good_record; Sheet.empty_fee_record]))).
  apply Exists_cons_tl, Exists_cons_hd.
  exists ""%string. split; [reflexivity|]. right. right. left. reflexivity.
Defined.

(** ** The cache of transactions *)

(** X11.  A failed read is remembered: when the transactions are not
    cached, or the cached list is 300 seconds old or more, and the
    worksheet cannot be read or has a record that cannot be read, the call
    returns the empty list and caches it, so that a call less than 300
    seconds later returns the empty list again, whatever the worksheet
    holds by then.  Without a client the call returns the empty list too,
    but caches nothing. *)
Theorem failed_read_is_cached (float : string -> option Q) (now later : Q)
    (c : Client) (client' : option Client) (st : TxCache) :
  (forall cached t,
     TRANSACTIONS_CACHE st = Some cached ->
     TRANSACTIONS_CACHE_TIME st = Some t -> 300 <= now - t) ->
  get_transactions_from_google_sheet float (transactions_sheet c) = [] ->
  later - now < 300 ->
  let r := get_transactions float now (Some c) st in
  fst r = [] /\
  snd r = mkTxCache (Some []) (Some now) /\
  get_transactions float later client' (snd r) = ([], snd r) /\
  get_transactions float now None st = ([], st).
Proof.
  intros Hold Hread Hlater r.
  assert (Hr : r = ([], mkTxCache (Some []) (Some now))).
  { unfold r, get_transactions. rewrite Hread.
    destruct (TRANSACTIONS_CACHE st) as [cached|] eqn:Hc; [|reflexivity].
    destruct (TRANSACTIONS_CACHE_TIME st) as [t|] eqn:Ht; [|reflexivity].
    specialize (Hold cached t eq_refl eq_refl).
    apply lt_false in Hold. unfold TRANSACTIONS_CACHE_DURATION.
    now rewrite Hold. }
  rewrite Hr. simpl. repeat split.
  - unfold get_transactions. simpl. apply lt_true in Hlater.
    unfold TRANSACTIONS_CACHE_DURATION. now rewrite Hlater.
  - unfold get_transactions.
    destruct (TRANSACTIONS_CACHE st) as [cached|] eqn:Hc; [|reflexivity].
    destruct (TRANSACTIONS_CACHE_TIME st) as [t|] eqn:Ht; [|reflexivity].
    specialize (Hold cached t eq_refl eq_refl).
    apply lt_false in Hold. unfold TRANSACTIONS_CACHE_DURATION.
    now rewrite Hold.
Qed.

Lemma failed_read_is_cached_witness :
  fst (get_transactions Decimal.float 0 (Some Sheet.failing_client)
         Sheet.cold) = [] /\
  fst (get_transactions Decimal.float 299 (Some Sheet.good_client)
         (snd (get_transactions Decimal.float 0 (Some Sheet.failing_client)
                 Sheet.cold))) = [].
Proof.
  assert (Hold : forall cached t,
             TRANSACTIONS_CACHE Sheet.cold = Some cached ->
             TRANSACTIONS_CACHE_TIME Sheet.cold = Some t -> 300 <= 0 - t)
    by discriminate.
  assert (Hlater : 299 - 0 < 300) by (vm_compute; reflexivity).
  destruct (failed_read_is_cached Decimal.float 0 299 Sheet.failing_client
              (Some Sheet.good_client) Sheet.cold Hold eq_refl Hlater)
    as (H1 & _ & H3 & _).
  split; [exact H1|]. now rewrite H3.
Defined.

(** X12.  A list that was read is served for 300 seconds and then read
    again: a call less than 300 seconds after the read returns the list
    that was read, whatever the worksheet or the client have become; once
    [TRANSACTIONS_CACHE] is reset, or 300 seconds have passed, a call with
    a client returns what the worksheet holds at that moment and caches it
    under the new time. *)
Theorem transactions_served_then_reread (float : string -> option Q)
    (now later : Q) (c c' : Client) (client' : option Client) (st : TxCache) :
  (forall cached t,
     TRANSACTIONS_CACHE st = Some cached ->
     TRANSACTIONS_CACHE_TIME st = Some t -> 300 <= now - t) ->
  let r := get_transactions float now (Some c) st in
  let fresh := get_transactions_from_google_sheet float (transactions_sheet c') in
  fst r = get_transactions_from_google_sheet float (transactions_sheet c) /\
  (later - now < 300 ->
   get_transactions float later client' (snd r) = (fst r, snd r)) /\
  (300 <= later - now ->
   get_transactions float later (Some c') (snd r)
   = (fresh, mkTxCache (Some fresh) (Some later))) /\
  get_transactions float later (Some c') (forget_transactions (snd r))
  = (fresh, mkTxCache (Some fresh) (Some later)).
Proof.
  intros Hold r fresh.
  assert (Hr : r = (get_transactions_from_google_sheet float
                      (transactions_sheet c),
                    mkTxCache
                      (Some (get_transactions_from_google_sheet float
                               (transactions_sheet c)))
                      (Some now))).
  { unfold r, get_transactions.
    destruct (TRANSACTIONS_CACHE st) as [cached|] eqn:Hc; [|reflexivity].
    destruct (TRANSACTIONS_CACHE_TIME st) as [t|] eqn:Ht; [|reflexivity].
    specialize (Hold cached t eq_refl eq_refl).
    apply lt_false in Hold. unfold TRANSACTIONS_CACHE_DURATION.
    now rewrite Hold. }
  rewrite Hr. simpl. split; [reflexivity|].
  unfold get_transactions, TRANSACTIONS_CACHE_DURATION. simpl.
  split; [|split].
  - intros Hlt. apply lt_true in Hlt. now rewrite Hlt.
  - intros Hge. apply lt_false in Hge. now rewrite Hge.
  - reflexivity.
Qed.

Lemma transactions_served_then_reread_witness :
  fst (get_transactions Decimal.float 299 (Some Sheet.failing_client)
         (snd (get_transactions Decimal.float 0 (Some Sheet.good_client)
                 Sheet.cold)))
  = [mkTransaction "2024-01-02" "2330.TW" "TSMC" "Buy" 1000 10 20 0].
Proof.
  assert (Hold : forall cached t,
             TRANSACTIONS_CACHE Sheet.cold = Some cached ->
             TRANSACTIONS_CACHE_TIME Sheet.cold = Some t -> 300 <= 0 - t)
    by discriminate.
  destruct (transactions_served_then_reread Decimal.float 0 299
              Sheet.good_client Sheet.good_client (Some Sheet.failing_client)
              Sheet.cold Hold)
    as (H1 & H2 & _).
  rewrite H2 by (vm_compute; reflexivity). exact H1.
Defined.

(** ** The price snapshot *)

Lemma endswith_refl (s : string) : Py.endswith s s = true.
Proof. destruct s; simpl; now rewrite ?String.eqb_refl, ?Ascii.eqb_refl. Qed.

Lemma endswith_app (s suffix : string) :
  Py.endswith (s ++ suffix) suffix = true.
Proof.
  induction s as [|c s IH]; simpl.
  - apply endswith_refl.
  - rewrite IH.
    match goal with |- (if ?b then _ else _) = _ => now destruct b end.
Qed.

Lemma price_key_suffix (code : string) :
  Py.endswith (price_key code) ".TW" || Py.endswith (price_key code) ".TWO"
  = true.
Proof.
  unfold price_key.
  destruct (Py.endswith code ".TW" || Py.endswith code ".TWO") eqn:H.
  - exact H.
  - now rewrite endswith_app.
Qed.

Lemma price_step_lookup (float : string -> option Q) (prices : gmap string Q)
    (row : PriceRow) (k : string) :
  price_step float prices row !! k =
  match prices_key float k row with
  | Some price => Some price
  | None => prices !! k
  end.
Proof.
  unfold price_step, prices_key.
  destruct (price_code row) as [code|]; [|reflexivity].
  destruct (price_value row) as [value|]; [|reflexivity].
  destruct (String.eqb_spec (price_key code) k) as [<-|Hk].
  - destruct (float_cell float value); [apply lookup_insert_eq|reflexivity].
  - destruct (float_cell float value); [|reflexivity].
    now apply lookup_insert_ne.
Qed.

Lemma fold_price_step_lookup (float : string -> option Q)
    (data : list PriceRow) (prices : gmap string Q) (k : string) :
  fold_left (price_step float) data prices !! k =
  match last_some (prices_key float k) data with
  | Some price => Some price
  | None => prices !! k
  end.
Proof.
  revert prices. induction data as [|row data IH]; intros prices; simpl.
  - reflexivity.
  - rewrite IH, price_step_lookup.
    destruct (last_some (prices_key float k) data); reflexivity.
Qed.

Lemma read_prices_lookup (float : string -> option Q) (data : list PriceRow)
    (k : string) :
  read_prices float data !! k = last_some (prices_key float k) data.
Proof.
  unfold read_prices. rewrite fold_price_step_lookup, lookup_empty.
  now destruct (last_some (prices_key float k) data).
Qed.

Lemma last_some_in {A B : Type} (f : A -> option B) (l : list A) (y : B) :
  last_some f l = Some y -> exists x, In x l /\ f x = Some y.
Proof.
  induction l as [|x l IH]; simpl; [discriminate|].
  destruct (last_some f l) as [y'|].
  - intros [= ->]. destruct (IH eq_refl) as (x' & Hin & Hf).
    exists x'. auto.
  - intros Hf. exists x. auto.
Qed.

(** X13.  The snapshot read from the worksheet gives, for a key, the price
    of the last record stored under that key whose price is a number or
    text that [float] accepts; records without a code or a price, and
    records whose price [float] refuses, change nothing.  Every key of the
    snapshot ends in ".TW" or ".TWO": a code without such an ending is
    stored under the code followed by ".TW". *)
Theorem snapshot_keeps_last_price (float : string -> option Q)
    (data : list PriceRow) (k : string) :
  read_prices float data !! k = last_some (prices_key float k) data /\
  (forall price,
     read_prices float data !! k = Some price ->
     Py.endswith k ".TW" || Py.endswith k ".TWO" = true).
Proof.
  split; [apply read_prices_lookup|].
  intros price. rewrite read_prices_lookup. intros H.
  apply last_some_in in H as (row & _ & Hrow).
  unfold prices_key in Hrow.
  destruct (price_code row) as [code|]; [|discriminate].
  destruct (price_value row) as [value|]; [|discriminate].
  destruct (String.eqb_spec (price_key code) k) as [<-|]; [|discriminate].
  apply price_key_suffix.
Qed.

(** Sample: the code without suffix is priced under "2330.TW", the later
    record for "2330.TW" replaces it, the record with "#N/A" is passed
    over. *)
Example snapshot_sample :
  read_prices Decimal.float Sheet.price_records !! "2330.TW"%string
    = Some 601.5 /\
  read_prices Decimal.float Sheet.price_records !! "2330"%string = None /\
  read_prices Decimal.float Sheet.price_records !! "6488.TWO"%string = None.
Proof. repeat split; vm_compute; reflexivity. Qed.

Lemma refresh_empties_cache (float : string -> option Q) (c : Client)
    (w : World) (now : Q) (code : string) :
  ~ unexpired (refresh_prices float (Some c) w) now code.
Proof.
  intros (entry & Hentry & _). unfold refresh_prices in Hentry. simpl in Hentry.
  destruct (prices_sheet c); simpl in Hentry;
    destruct (cache w); simpl in Hentry;
    rewrite lookup_empty in Hentry; discriminate.
Qed.

(** X14.  The action "update_all_prices" does nothing without a client;
    with one it summarizes the rows after the prices were read again and
    the cache emptied.  From then on no cached price is served: whatever
    the time, a request reads the clock, the name directory and the
    snapshot again.  When the worksheet of
    prices was read, the snapshot is the one just read, and a code that is
    in it with a non-zero price gets that price, rounded, without Yahoo
    Finance being asked; when the worksheet could not be read, the snapshot
    is the one from before. *)
Theorem refreshed_prices_are_served (float : string -> option Q) (env : Env)
    (c : Client) (w : World) (code : string) :
  let w' := refresh_prices float (Some c) w in
  let r := fetch_stock_info env code w' in
  (forall now, ~ unexpired w' now code) /\
  trace w' = trace w /\
  (exists events,
     trace (snd r) = trace w ++ EvTime :: EvLoadNames :: EvSnapshot code
                                  :: events) /\
  (forall data price,
     prices_sheet c = Records data ->
     last_some (prices_key float code) data = Some price ->
     ~ price == 0 ->
     Info.price (fst r) = Py.round2 price /\
     trace (snd r) = trace w ++ [EvTime; EvLoadNames; EvSnapshot code]) /\
  (prices_sheet c = ReadError ->
   google_sheets_prices w' = google_sheets_prices w) /\
  (forall txs,
     update_all_prices float env (Some c) txs w
     = (Some (fst (get_portfolio_summary env txs w')),
        snd (get_portfolio_summary env txs w')) /\
     update_all_prices float env None txs w = (None, w)).
Proof.
  intros w' r.
  assert (Hexp : forall now, ~ unexpired w' now code)
    by (intros now; apply refresh_empties_cache).
  assert (Htr : trace w' = trace w).
  { unfold w', refresh_prices. simpl. now destruct (prices_sheet c). }
  destruct (fetch_resolves env code w' (Hexp _)) as (Hprice & _ & Htrace).
  fold r in Hprice, Htrace. rewrite Htr in Htrace.
  split; [exact Hexp|]. split; [exact Htr|]. split; [|split; [|split]].
  - rewrite Htrace. unfold tier_events. simpl. eexists. reflexivity.
  - intros data price Hsheet Hlast Hnz.
    assert (Hsnap : snapshot_value (default ∅ (google_sheets_prices w')) code
                    = Some price).
    { unfold w', refresh_prices. rewrite Hsheet. simpl.
      unfold snapshot_value. rewrite read_prices_lookup, Hlast.
      destruct (Py.eq price 0) eqn:Heq; [|reflexivity].
      apply eq_true in Heq. contradiction. }
    split.
    + rewrite Hprice. unfold tier_price. now rewrite Hsnap.
    + rewrite Htrace. unfold tier_events. now rewrite Hsnap.
  - intros Hsheet. unfold w', refresh_prices. now rewrite Hsheet.
  - intros txs. split; [|reflexivity].
    unfold update_all_prices. fold w'.
    now destruct (get_portfolio_summary env txs w').
Qed.

Lemma refreshed_prices_are_served_witness :
  Info.price
    (fst (fetch_stock_info Sample.silent "2330.TW"
            (refresh_prices Decimal.float (Some Sheet.good_client)
               Sample.cached_at_0))) = Py.round2 601.5.
Proof.
  destruct (refreshed_prices_are_served Decimal.float Sample.silent
              Sheet.good_client Sample.cached_at_0 "2330.TW")
    as (_ & _ & _ & H & _ & _).
  apply (H Sheet.price_records 601.5 eq_refl).
  - vm_compute. reflexivity.
  - vm_compute. discriminate.
Defined.

(** ** The entry path: codes and rows *)

Lemma validate_row (strip : string -> string) (float : string -> option Q)
    (default_date : string) (f : Form) (row : Transaction) :
  validate strip float default_date f = inr row ->
  exists q p,
    float (default ""%string (form_quantity f)) = Some q /\
    float (default ""%string (form_price f)) = Some p /\
    blank (Some (strip (default ""%string (form_code f)))) = false /\
    row = new_transaction
            (default default_date (form_date f))
            (strip (default ""%string (form_code f)))
            (if blank (Some (strip (default ""%string (form_name f))))
             then "未知股票"%string
             else strip (default ""%string (form_name f)))
            (default "TWSE"%string (form_market f))
            (default "Buy"%string (form_type f)) q p.
Proof.
  unfold validate.
  destruct (blank (Some (strip (default ""%string (form_code f)))));
    [discriminate|].
  destruct (blank (form_quantity f)); [discriminate|].
  destruct (float (default ""%string (form_quantity f))) as [q|];
    [|discriminate].
  destruct (Py.le q 0); [discriminate|].
  destruct (Py.ne (Py.mod_ q 1000) 0); [discriminate|].
  destruct (blank (form_price f)); [discriminate|].
  destruct (float (default ""%string (form_price f))) as [p|];
    [|discriminate].
  destruct (Py.le p 0); [discriminate|].
  intros [= <-]. exists q, p. auto.
Qed.

Lemma before_dot_app (code rest : string) :
  Py.before_dot code = code ->
  Py.before_dot (code ++ String "."%char rest) = code.
Proof.
  induction code as [|c code IH]; simpl.
  - reflexivity.
  - destruct (Ascii.eqb c "."%char); [discriminate|].
    intros [= H]. now rewrite (IH H).
Qed.

Lemma endswith_cons (c : ascii) (s suffix : string) :
  Py.endswith (String c s) suffix =
  if String.eqb (String c s) suffix then true else Py.endswith s suffix.
Proof. reflexivity. Qed.

Lemma not_endswith_two (s : string) : Py.endswith (s ++ ".TW") ".TWO" = false.
Proof.
  induction s as [|c s IH]; [reflexivity|].
  change ((String c s ++ ".TW")%string) with (String c (s ++ ".TW")).
  rewrite endswith_cons, IH.
  destruct (String.eqb_spec (String c (s ++ ".TW")) ".TWO") as [Heq|_];
    [|reflexivity].
  exfalso. injection Heq as _ Heq.
  destruct s as [|c1 s]; [discriminate|].
  injection Heq as _ Heq.
  destruct s as [|c2 s]; [discriminate|].
  injection Heq as _ Heq.
  destruct s as [|c3 s]; [discriminate|].
  injection Heq as _ Heq. destruct s; discriminate.
Qed.

(** X15.  A row built by the entry path carries the code typed in the form
    followed by ".TWO" when the market is "TWO" and by ".TW" for any other
    market; the over-the-counter flag of its entry is set exactly for the
    market "TWO"; the snapshot stores prices for this code under the code
    itself; and when the typed code has no dot, the resolver looks its name
    up under the typed code and the market, "TWO" or "TWSE". *)
Theorem entry_code_and_market (strip : string -> string)
    (float : string -> option Q) (default_date : string) (f : Form)
    (row : Transaction) :
  validate strip float default_date f = inr row ->
  let code := strip (default ""%string (form_code f)) in
  let otc := String.eqb (default "TWSE"%string (form_market f)) "TWO" in
  Stock_Code row = (code ++ (if otc then ".TWO" else ".TW"))%string /\
  is_otc (new_status row) = otc /\
  price_key (Stock_Code row) = Stock_Code row /\
  (Py.before_dot code = code ->
   forall env w,
     ~ unexpired w (time_time env (trace w)) (Stock_Code row) ->
     Info.name (fst (fetch_stock_info env (Stock_Code row) w))
     = default "未知名稱"%string
         (load_stock_names env (trace w ++ [EvTime])
            !! (code, if otc then "TWO"%string else "TWSE"%string))).
Proof.
  intros Hv code otc.
  destruct (validate_row strip float default_date f row Hv)
    as (q & p & _ & _ & _ & ->).
  fold code. unfold new_transaction. simpl. fold otc.
  assert (Hotc : Py.endswith (if otc then code ++ ".TWO" else code ++ ".TW")
                   ".TWO" = otc).
  { destruct otc; [apply endswith_app | apply not_endswith_two]. }
  split; [now destruct otc|]. split; [exact Hotc|]. split.
  - unfold price_key.
    destruct otc; [rewrite (endswith_app code ".TWO")
                  | rewrite (endswith_app code ".TW")];
      now rewrite ?orb_true_r.
  - intros Hdot env w Hexp.
    destruct (fetch_cases env (if otc then code ++ ".TWO" else code ++ ".TW") w)
      as [(entry & Hentry & Hlt & _) | [_ ->]].
    + exfalso. apply Hexp. now exists entry.
    + destruct (fetch_fresh_tiers env
                  (if otc then code ++ ".TWO" else code ++ ".TW")
                  (Py.before_dot (if otc then code ++ ".TWO" else code ++ ".TW"))
                  (if Py.endswith (if otc then code ++ ".TWO"
                                   else code ++ ".TW") ".TWO"
                   then "TWO"%string else "TWSE"%string)
                  (default ∅ (cache w)) (default ∅ (google_sheets_prices w))
                  (time_time env (trace w)) (trace w ++ [EvTime]))
        as (_ & Hname & _).
      rewrite Hname, Hotc.
      assert (Hbd : Py.before_dot (if otc then code ++ ".TWO"
                                   else code ++ ".TW") = code).
      { destruct otc; now apply before_dot_app. }
      now rewrite Hbd.
Qed.

Lemma entry_code_and_market_witness :
  exists row,
    validate (fun s => s) Decimal.float "2024-05-02" Sample.good_form
      = inr row /\
    Stock_Code row = "2330.TW"%string /\
    is_otc (new_status row) = false.
Proof.
  eexists. split; [vm_compute; reflexivity|].
  match goal with
  | |- Stock_Code ?row = _ /\ _ =>
      destruct (entry_code_and_market (fun s => s) Decimal.float "2024-05-02"
                  Sample.good_form row eq_refl) as (Hcode & Hotc & _)
  end.
  split; [exact Hcode | exact Hotc].
Defined.

Lemma validate_entered (strip : string -> string)
    (float : string -> option Q) (default_date : string) (f : Form)
    (row : Transaction) :
  validate strip float default_date f = inr row -> entered row.
Proof.
  intros Hv.
  destruct (validate_accepts strip float default_date f row Hv)
    as (q & p & _ & _ & Hq & Hm & _ & _ & Hp & HQ & HP & _ & Hfee & Htax).
  destruct (validate_row strip float default_date f row Hv)
    as (q' & p' & _ & _ & _ & Hrow).
  unfold entered. rewrite HQ, HP, Hfee, Htax.
  apply mod_zero_multiple in Hm.
  assert (Hmax : 20 <= Py.max 20 (p * q * 0.001425)).
  { unfold Py.max. destruct (Py.gt (p * q * 0.001425) 20) eqn:Hgt.
    - apply gt_true in Hgt. lra.
    - lra. }
  assert (Hpq : 0 < p * q) by nra.
  repeat split; try assumption.
  - destruct (String.eqb (Type_ row) "Sell"); lra.
  - rewrite Hrow. unfold new_transaction. simpl.
    destruct (String.eqb (default "TWSE"%string (form_market f)) "TWO").
    + rewrite (endswith_app _ ".TWO"). apply orb_true_r.
    + now rewrite (endswith_app _ ".TW").
Qed.

(** X16.  A sheet filled through the entry path only holds rows with a
    positive quantity that is a multiple of 1000, a positive price, a fee
    of at least 20, a tax that is not negative and a code that ends in
    ".TW" or ".TWO": submissions keep this property of the sheet, whatever
    is submitted and whether or not each append succeeds, and never remove
    or change a row that is there. *)
Theorem entry_path_keeps_rows_well_formed (strip : string -> string)
    (float : string -> option Q) (default_date : string)
    (submissions : list (Form * bool * bool)) (sheet : list Transaction) :
  Forall entered sheet ->
  let sheet' := submit_all strip float default_date submissions sheet in
  Forall entered sheet' /\
  quantities_nonneg sheet' /\
  exists added, sheet' = sheet ++ added.
Proof.
  intros Hsheet sheet'.
  assert (H : Forall entered sheet' /\ exists added, sheet' = sheet ++ added).
  { unfold sheet', submit_all. clear sheet'. revert sheet Hsheet.
    induction submissions as [|[[f client] appended] subs IH];
      intros sheet Hsheet; simpl.
    - split; [exact Hsheet|]. exists []. now rewrite app_nil_r.
    - destruct (add_transaction_cases strip float default_date f client
                  appended sheet)
        as [(e & _ & Hs) | (row & Hv & _ & Hs)]; rewrite Hs.
      + now apply IH.
      + destruct (IH (sheet ++ [row])) as (Hall & added & Hadded).
        { apply Forall_app. split; [exact Hsheet|].
          constructor; [|constructor].
          apply (validate_entered strip float default_date f row Hv). }
        split; [exact Hall|]. exists (row :: added).
        rewrite Hadded, <- app_assoc. reflexivity. }
  destruct H as (Hall & Hadded).
  split; [exact Hall|]. split; [|exact Hadded].
  unfold quantities_nonneg. eapply List.Forall_impl; [|exact Hall].
  intros r (Hq & _). lra.
Qed.

Lemma entry_path_keeps_rows_well_formed_witness :
  Forall entered [] /\
  length (submit_all (fun s => s) Decimal.float "2024-05-02"
            [(Sample.good_form, true, true);
             (Sample.sell_form (Some "1500"%string) (Some "12.5"%string),
              true, true);
             (Sample.good_form, true, false)] []) = 1%nat /\
  Forall entered
    (submit_all (fun s => s) Decimal.float "2024-05-02"
       [(Sample.good_form, true, true);
        (Sample.sell_form (Some "1500"%string) (Some "12.5"%string),
         true, true);
        (Sample.good_form, true, false)] []).
Proof.
  split; [constructor|]. split; [reflexivity|].
  apply (entry_path_keeps_rows_well_formed (fun s => s) Decimal.float
           "2024-05-02" _ []).
  constructor.
Defined.

(** ** The name directory *)

Lemma key_eqb_eq (k k' : string * string) : Names.key_eqb k k' = true <-> k = k'.
Proof.
  destruct k as [a b], k' as [a' b']. unfold Names.key_eqb. simpl.
  rewrite andb_true_iff, !String.eqb_eq. split.
  - intros [-> ->]. reflexivity.
  - intros [= -> ->]. auto.
Qed.

Lemma names_get_set (k k' : string * string) (v : name_value) (d : Names.t) :
  Names.get (Names.set k v d) k' =
  if Names.key_eqb k k' then Some v else Names.get d k'.
Proof.
  induction d as [|[k0 v0] d IH]; simpl.
  - reflexivity.
  - destruct (Names.key_eqb k0 k) eqn:Hk0; simpl.
    + apply key_eqb_eq in Hk0. subst k0.
      now destruct (Names.key_eqb k k').
    + rewrite IH. destruct (Names.key_eqb k k') eqn:Hk; [|reflexivity].
      apply key_eqb_eq in Hk. subst k'. now rewrite Hk0.
Qed.

Lemma names_get_in (d : Names.t) (k : string * string) (v : name_value) :
  Names.get d k = Some v -> In (k, v) d.
Proof.
  induction d as [|[k0 v0] d IH]; simpl; [discriminate|].
  destruct (Names.key_eqb k0 k) eqn:Hk.
  - apply key_eqb_eq in Hk. intros [= ->]. left. now subst.
  - intros H. right. now apply IH.
Qed.

Lemma blank_some (s : string) : blank (Some s) = true <-> s = ""%string.
Proof. destruct s; simpl; split; congruence. Qed.

Lemma load_fold_get (rows : list NameRow) (d : Names.t)
    (code market : string) :
  Names.get
    (fold_left
       (fun stock_names row =>
          Names.set (csv_Code row, csv_Market row) (csv_Name row) stock_names)
       rows d) (code, market)
  = match last_some (name_in_row code market) rows with
    | Some v => Some v
    | None => Names.get d (code, market)
    end.
Proof.
  revert d. induction rows as [|row rows IH]; intros d; simpl; [reflexivity|].
  rewrite IH, names_get_set. unfold Names.key_eqb, name_in_row. simpl.
  destruct (last_some _ rows); [reflexivity|].
  now destruct (String.eqb (csv_Code row) code
                && String.eqb (csv_Market row) market).
Qed.

(** X17.  The directory loaded from the file of names gives, for a code and
    a market, the name of the last row with that code and market.  It is
    empty when the file is missing, cannot be decoded or read, or when its
    columns are not exactly Code, Name, Market in this order. *)
Theorem directory_keeps_last_name (columns : list string)
    (rows : list NameRow) (code market : string) :
  (columns = ["Code"%string; "Name"%string; "Market"%string] ->
   Names.get (load_names (Table columns rows)) (code, market)
   = last_some (name_in_row code market) rows) /\
  (columns <> ["Code"%string; "Name"%string; "Market"%string] ->
   load_names (Table columns rows) = []) /\
  load_names NoFile = [] /\ load_names Undecodable = [] /\
  load_names Unreadable = [].
Proof.
  split; [|split; [|auto]].
  - intros ->. unfold load_names.
    destruct (decide (_ = _)) as [_|Hne]; [|contradiction].
    rewrite load_fold_get. simpl.
    now destruct (last_some (name_in_row code market) rows).
  - intros Hne. unfold load_names.
    destruct (decide (_ = _)) as [Heq|_]; [contradiction|reflexivity].
Qed.

Lemma first_with_code_in (code : string) (d : Names.t) (n : name_value) :
  first_with_code code d = Some n -> exists market, In ((code, market), n) d.
Proof.
  unfold first_with_code.
  destruct (find _ d) as [[[c m] v]|] eqn:Hfind; [|discriminate].
  intros [= <-]. apply find_some in Hfind as [Hin Hc]. simpl in Hc.
  apply String.eqb_eq in Hc. subst c. now exists m.
Qed.

Lemma first_with_code_none (code : string) (d : Names.t) :
  first_with_code code d = None ->
  forall market n, ~ In ((code, market), n) d.
Proof.
  unfold first_with_code.
  destruct (find _ d) as [item|] eqn:Hfind; [discriminate|].
  intros _ market n Hin.
  pose proof (find_none _ _ Hfind _ Hin) as H. simpl in H.
  now rewrite String.eqb_refl in H.
Qed.

Lemma truthy_text (n : string) : truthy (Text n) = true <-> n <> ""%string.
Proof. destruct n; simpl; split; congruence. Qed.

(** The end of the route, on the name the lookups settled on. *)
Lemma answer_cases (v : name_value) :
  (if negb (truthy v) then NameNotFound
   else match v with
        | Text name => NameFound name (negb (has_cjk name))
        | NaN | Number _ => NameTypeError
        end)
  = match v with
    | Text n =>
        if blank (Some n) then NameNotFound
        else NameFound n (negb (has_cjk n))
    | NaN => NameTypeError
    | Number q => if Qeq_bool q 0 then NameNotFound else NameTypeError
    end.
Proof.
  destruct v as [[|c n]| |q]; simpl; try reflexivity.
  now destruct (Qeq_bool q 0).
Qed.

(** X18.  [fetch_stock_name] asks for a code when the posted code is empty
    after stripping.  A non-empty name stored under the code and the market
    ("TWO", or "TWSE" for any other market) is the answer.  Every name the
    route answers is a non-empty name of the directory, stored under the
    posted code for some market or, for the market "TWO", under the code
    without its trailing letters B; the flag [is_english] says that the
    name has no character from U+4E00 to U+9FFF.  A value stored under the
    code and the market that is not text, NaN or a number other than 0,
    makes the route raise. *)
Theorem name_lookup_sound (strip : string -> string)
    (form_code form_market : option string) (d : Names.t) :
  let code := strip (default ""%string form_code) in
  let market_key :=
    if String.eqb (default "TWSE"%string form_market) "TWO"
    then "TWO"%string else "TWSE"%string in
  let answer := fetch_stock_name strip form_code form_market d in
  (code = ""%string -> answer = EnterCode) /\
  (code <> ""%string ->
   forall n, Names.get d (code, market_key) = Some (Text n) -> n <> ""%string ->
             answer = NameFound n (negb (has_cjk n))) /\
  (forall n e,
     answer = NameFound n e ->
     n <> ""%string /\ e = negb (has_cjk n) /\
     ((exists market, In ((code, market), Text n) d) \/
      In ((rstrip_B code, "TWO"%string), Text n) d)) /\
  (code <> ""%string ->
   forall v, Names.get d (code, market_key) = Some v -> truthy v = true ->
             (forall n, v <> Text n) -> answer = NameTypeError).
Proof.
  intros code market_key answer. unfold answer, fetch_stock_name.
  fold code. fold market_key.
  split; [|split; [|split]].
  - intros ->. reflexivity.
  - intros Hcode n Hget Hn.
    assert (Hb : blank (Some code) = false).
    { destruct (blank (Some code)) eqn:H; [|reflexivity].
      apply blank_some in H. contradiction. }
    destruct n as [|c n]; [contradiction|].
    rewrite Hb, Hget. reflexivity.
  - intros n e.
    destruct (blank (Some code)); [discriminate|].
    set (n1 := default (Text "") (Names.get d (code, market_key))).
    set (n2 := if negb (truthy n1) && Py.endswith code "B"
                  && String.eqb (default "TWSE"%string form_market) "TWO"
               then default (Text "")
                      (Names.get d (rstrip_B code, market_key))
               else n1).
    set (n3 := if negb (truthy n2)
               then default n2 (first_with_code code d) else n2).
    assert (H1 : truthy n1 = true ->
                 exists market, In ((code, market), n1) d).
    { unfold n1. destruct (Names.get d (code, market_key)) as [v|] eqn:Hget;
        simpl; [|discriminate].
      intros _. exists market_key. now apply names_get_in. }
    assert (H2 : truthy n2 = true ->
                 (exists market, In ((code, market), n2) d) \/
                 In ((rstrip_B code, "TWO"%string), n2) d).
    { unfold n2.
      destruct (truthy n1) eqn:Hb1; cbn [andb negb];
        [intros _; left; now apply H1|].
      destruct (Py.endswith code "B"); cbn [andb]; [|congruence].
      unfold market_key.
      destruct (String.eqb (default "TWSE"%string form_market) "TWO");
        [|congruence].
      destruct (Names.get d (rstrip_B code, "TWO"%string)) as [v|] eqn:Hget;
        [|discriminate].
      intros _. right. now apply names_get_in. }
    assert (H3 : truthy n3 = true ->
                 (exists market, In ((code, market), n3) d) \/
                 In ((rstrip_B code, "TWO"%string), n3) d).
    { unfold n3. destruct (truthy n2) eqn:Hb2; cbn [negb];
        [intros _; now apply H2|].
      destruct (first_with_code code d) as [v|] eqn:Hfirst; simpl.
      - intros _. left. now apply first_with_code_in.
      - congruence. }
    clearbody n3. clear H1 H2.
    destruct (truthy n3) eqn:Hn3; cbn [negb]; [|discriminate].
    destruct n3 as [m| |q]; try discriminate.
    intros [= <- <-].
    split; [now apply truthy_text|].
    split; [reflexivity|]. now apply H3.
  - intros Hcode v Hget Hv Hnot.
    assert (Hb : blank (Some code) = false).
    { destruct (blank (Some code)) eqn:H; [|reflexivity].
      apply blank_some in H. contradiction. }
    rewrite Hb, Hget. cbv zeta. simpl default.
    repeat (rewrite Hv; cbn [negb andb]).
    destruct v as [n| |q]; [now contradiction (Hnot n)|reflexivity..].
Qed.

(** X19.  When every name of the directory is a non-empty text, a code
    listed under any market gets a name, also when the posted market is the
    other one.  The search through the other markets stops at the first key
    with the code, whatever follows in the directory: a text stored there
    is the answer, NaN, the value of a row without name, makes the route
    raise, and there is no name for the number 0. *)
Theorem name_lookup_finds_other_market (strip : string -> string)
    (form_code form_market : option string) (d : Names.t) :
  let code := strip (default ""%string form_code) in
  let market_key :=
    if String.eqb (default "TWSE"%string form_market) "TWO"
    then "TWO"%string else "TWSE"%string in
  let answer := fetch_stock_name strip form_code form_market d in
  code <> ""%string ->
  (Forall (fun item => exists n, snd item = Text n /\ n <> ""%string) d ->
   forall market v, In ((code, market), v) d ->
                    exists n' e, answer = NameFound n' e) /\
  (Names.get d (code, market_key) = None ->
   Py.endswith code "B" = false ->
   forall v, first_with_code code d = Some v ->
     answer = match v with
              | Text n =>
                  if blank (Some n) then NameNotFound
                  else NameFound n (negb (has_cjk n))
              | NaN => NameTypeError
              | Number q =>
                  if Qeq_bool q 0 then NameNotFound else NameTypeError
              end).
Proof.
  intros code market_key answer Hcode.
  assert (Hb : blank (Some code) = false).
  { destruct (blank (Some code)) eqn:H; [|reflexivity].
    apply blank_some in H. contradiction. }
  unfold answer, fetch_stock_name. fold code. fold market_key. rewrite Hb.
  split.
  - intros Hall market v0 Hin.
    assert (Htext : forall k v, In (k, v) d ->
                                exists n, v = Text n /\ truthy v = true).
    { intros k v Hv.
      destruct (proj1 (List.Forall_forall _ _) Hall _ Hv) as (n & Hn & Hne).
      simpl in Hn. subst v. exists n. split; [reflexivity|].
      now apply truthy_text. }
    set (n1 := default (Text "") (Names.get d (code, market_key))).
    set (n2 := if negb (truthy n1) && Py.endswith code "B"
                  && String.eqb (default "TWSE"%string form_market) "TWO"
               then default (Text "")
                      (Names.get d (rstrip_B code, market_key))
               else n1).
    assert (Hn1 : exists n, n1 = Text n).
    { unfold n1. destruct (Names.get d (code, market_key)) as [v|] eqn:Hget.
      - apply names_get_in in Hget.
        destruct (Htext _ _ Hget) as (n & -> & _). now exists n.
      - now exists ""%string. }
    assert (Hn2 : exists n, n2 = Text n).
    { unfold n2.
      destruct (negb (truthy n1) && Py.endswith code "B"
                && String.eqb (default "TWSE"%string form_market) "TWO");
        [|exact Hn1].
      destruct (Names.get d (rstrip_B code, market_key)) as [v|] eqn:Hget.
      - apply names_get_in in Hget.
        destruct (Htext _ _ Hget) as (n & -> & _). now exists n.
      - now exists ""%string. }
    assert (Hfirst : exists n, first_with_code code d = Some (Text n) /\
                               truthy (Text n) = true).
    { destruct (first_with_code code d) as [v|] eqn:Hf.
      - apply first_with_code_in in Hf as [m Hm].
        destruct (Htext _ _ Hm) as (n & -> & Hn). now exists n.
      - exfalso. apply (first_with_code_none code d Hf market v0 Hin). }
    destruct Hfirst as (n & Hv & Hvne).
    destruct Hn2 as (m2 & Hm2). rewrite Hm2.
    destruct (truthy (Text m2)) eqn:Hb2; cbn [negb].
    + rewrite Hb2. cbn [negb]. eauto.
    + rewrite Hv. simpl default. rewrite Hvne. cbn [negb]. eauto.
  - intros Hget Hend v Hfirst. rewrite Hget, Hend, Hfirst.
    simpl default. cbn [truthy blank negb andb]. apply answer_cases.
Qed.

Lemma name_lookup_finds_other_market_witness :
  fetch_stock_name (fun s => s) (Some "6488"%string) None
    (load_names (Table ["Code"%string; "Name"%string; "Market"%string]
                   Sheet.name_rows))
  = NameFound "GlobalWafers" true /\
  fetch_stock_name (fun s => s) (Some "1101"%string) (Some "TWO"%string)
    (load_names (Table ["Code"%string; "Name"%string; "Market"%string]
                   Sheet.unnamed_rows))
  = NameTypeError.
Proof.
  split.
  - assert (Hcode : (fun s : string => s)
                      (default ""%string (Some "6488"%string))
                    <> ""%string) by discriminate.
    destruct (name_lookup_finds_other_market (fun s => s)
                (Some "6488"%string) None
                (load_names
                   (Table ["Code"%string; "Name"%string; "Market"%string]
                      Sheet.name_rows)) Hcode) as [Hfound _].
    assert (Hall : Forall
                     (fun item : (string * string) * name_value =>
                        exists n, snd item = Text n /\ n <> ""%string)
                     (load_names
                        (Table ["Code"%string; "Name"%string; "Market"%string]
                           Sheet.name_rows))).
    { repeat constructor; eexists; (split; [reflexivity|discriminate]). }
    destruct (Hfound Hall "TWO"%string (Text "GlobalWafers")
                ltac:(right; left; reflexivity)) as (n & e & Hn).
    vm_compute in Hn. injection Hn as <- <-. reflexivity.
  - assert (Hcode : (fun s : string => s)
                      (default ""%string (Some "1101"%string))
                    <> ""%string) by discriminate.
    destruct (name_lookup_finds_other_market (fun s => s)
                (Some "1101"%string) (Some "TWO"%string)
                (load_names
                   (Table ["Code"%string; "Name"%string; "Market"%string]
                      Sheet.unnamed_rows)) Hcode) as [_ Hfirst].
    exact (Hfirst eq_refl eq_refl NaN eq_refl).
Defined.

(** Samples: a name in Chinese characters is not English; a code typed
    with the wrong market is found all the same; a row without name makes
    the route raise for its code, on either market. *)
Example name_lookup_samples :
  let d := load_names (Table ["Code"%string; "Name"%string; "Market"%string]
                         Sheet.name_rows) in
  let u := load_names (Table ["Code"%string; "Name"%string; "Market"%string]
                         Sheet.unnamed_rows) in
  fetch_stock_name (fun s => s) (Some "2330"%string) (Some "TWSE"%string) d
    = NameFound "台積電" false /\
  fetch_stock_name (fun s => s) (Some "2330"%string) (Some "TWO"%string) d
    = NameFound "台積電" false /\
  fetch_stock_name (fun s => s) (Some "1101"%string) None d = NameNotFound /\
  fetch_stock_name (fun s => s) None None d = EnterCode /\
  fetch_stock_name (fun s => s) (Some "1101"%string) (Some "TWSE"%string) u
    = NameTypeError /\
  rstrip_B "00679BB" = "00679"%string.
Proof. repeat split; vm_compute; reflexivity. Qed.

(** ** Summarizing twice *)

Lemma price_of_frame (env : Env) (c c' : string) (data : Status) (w : World) :
  c' <> c ->
  default ∅ (cache (snd (price_of env c data w))) !! c'
  = default ∅ (cache w) !! c'.
Proof.
  intros Hc. unfold price_of. destruct (Py.gt (quantity data) 0); [|reflexivity].
  destruct (fetch_leaves env c w) as (Hframe & _).
  destruct (fetch_stock_info env c w) as [info w1]. simpl in *.
  now apply Hframe.
Qed.

Lemma world_after_frame (env : Env) (d : Dict.t) (w : World) (c : string) :
  ~ In c (Dict.keys d) ->
  default ∅ (cache (world_after env d w)) !! c = default ∅ (cache w) !! c.
Proof.
  revert w. induction d as [|[c0 data] d IH]; intros w Hc; simpl.
  - reflexivity.
  - rewrite IH by (intros H; apply Hc; now right).
    apply price_of_frame. intros ->. apply Hc. now left.
Qed.

(** The price the cache holds for a code, 0 when it holds none. *)
Lemma first_run_prices (env : Env) (d : Dict.t) (w : World) :
  NoDup (Dict.keys d) ->
  let entries := default ∅ (cache (world_after env d w)) in
  iterations env d w
  = map (fun item =>
           locals_of (fst item) (snd item)
             (if held item
              then match entries !! fst item with
                   | Some entry => Info.price (CacheEntry.data entry)
                   | None => 0
                   end
              else 0)) d.
Proof.
  revert w. induction d as [|[c data] d IH]; intros w Hnd; simpl.
  - reflexivity.
  - apply NoDup_cons in Hnd as [Hc Hnd].
    assert (Hc' : ~ In c (Dict.keys d)).
    { intros H. apply Hc. now apply list_elem_of_In. }
    destruct (price_of env c data w) as [p w1] eqn:Hp. simpl.
    rewrite (IH w1 Hnd). f_equal.
    rewrite (world_after_frame env d w1 c Hc').
    unfold held. simpl. unfold price_of in Hp.
    destruct (Py.gt (quantity data) 0); [|congruence].
    destruct (fetch_leaves env c w) as (_ & _ & (entry & Hentry & Hdata) & _).
    destruct (fetch_stock_info env c w) as [info w2]. simpl in *.
    injection Hp as <- <-. now rewrite Hentry, Hdata.
Qed.

Lemma second_run_prices (env : Env) (d : Dict.t) (w : World)
    (entries : gmap string CacheEntry.t) :
  default ∅ (cache w) = entries ->
  (forall tr item entry,
     In item d -> held item = true -> entries !! fst item = Some entry ->
     time_time env tr - CacheEntry.timestamp entry < 1800) ->
  (forall item, In item d -> held item = true ->
                exists entry, entries !! fst item = Some entry) ->
  iterations env d w
  = map (fun item =>
           locals_of (fst item) (snd item)
             (if held item
              then match entries !! fst item with
                   | Some entry => Info.price (CacheEntry.data entry)
                   | None => 0
                   end
              else 0)) d /\
  default ∅ (cache (world_after env d w)) = entries /\
  exists n, trace (world_after env d w) = trace w ++ repeat EvTime n.
Proof.
  revert w. induction d as [|[c data] d IH]; intros w Hw Htime Hentries; simpl.
  - split; [reflexivity|]. split; [exact Hw|]. exists 0%nat.
    now rewrite app_nil_r.
  - assert (Hstep : exists p k,
               price_of env c data w = (p, snd (price_of env c data w)) /\
               p = (if held (c, data)
                    then match entries !! c with
                         | Some entry => Info.price (CacheEntry.data entry)
                         | None => 0
                         end
                    else 0) /\
               default ∅ (cache (snd (price_of env c data w))) = entries /\
               trace (snd (price_of env c data w))
               = trace w ++ repeat EvTime k).
    { unfold price_of, held. simpl.
      destruct (Py.gt (quantity data) 0) eqn:Hheld.
      - destruct (Hentries (c, data)) as [entry Hentry];
          [now left | exact Hheld |]. simpl in Hentry.
        destruct (fetch_cases env c w)
          as [(entry' & Hentry' & _ & Hfetch) | [Hexp _]].
        + rewrite Hw, Hentry in Hentry'. injection Hentry' as <-.
          rewrite Hfetch, Hentry. simpl. rewrite Hw.
          eexists. exists 1%nat.
          split; [reflexivity|]. split; [reflexivity|].
          split; reflexivity.
        + exfalso. apply Hexp. exists entry. rewrite Hw.
          split; [exact Hentry|].
          apply (Htime _ (c, data) entry); [now left | exact Hheld
                                            | exact Hentry].
      - eexists. exists 0%nat. simpl. rewrite app_nil_r.
        split; [reflexivity|]. split; [reflexivity|].
        split; [exact Hw | reflexivity]. }
    destruct Hstep as (p & k & Hp & Hpv & Hc & Htr).
    rewrite Hp. cbn [fst snd].
    destruct (IH (snd (price_of env c data w)) Hc) as (Hit & Hcache & n & Hn).
    { intros tr item entry Hin. apply Htime. now right. }
    { intros item Hin. apply Hentries. now right. }
    split; [rewrite Hit, Hpv; reflexivity|].
    split; [exact Hcache|].
    exists (k + n)%nat.
    rewrite Hn, Htr, <- app_assoc, repeat_app. reflexivity.
Qed.

(** X21.  Summarizing the same transactions again right after a summary
    gives the same lines and totals, leaves the cache as it is and only
    reads the clock, provided every clock reading is less than 1800 seconds
    past every timestamp the first summary left in the cache. *)
Theorem summary_twice (env : Env) (txs : list Transaction) (w : World) :
  let r1 := get_portfolio_summary env txs w in
  let r2 := get_portfolio_summary env txs (snd r1) in
  (forall tr c entry,
     default ∅ (cache (snd r1)) !! c = Some entry ->
     time_time env tr - CacheEntry.timestamp entry < 1800) ->
  fst r2 = fst r1 /\
  default ∅ (cache (snd r2)) = default ∅ (cache (snd r1)) /\
  exists n, trace (snd r2) = trace (snd r1) ++ repeat EvTime n.
Proof.
  intros r1 r2 Htime. unfold r2, r1 in *. clear r1 r2.
  rewrite !summary_unfold in *. simpl fst in *. simpl snd in *.
  set (w1 := world_after env (ledger txs) w) in *.
  pose proof (first_run_prices env (ledger txs) w (ledger_nodup txs)) as H1.
  fold w1 in H1. simpl in H1.
  destruct (second_run_prices env (ledger txs) w1 (default ∅ (cache w1))
              eq_refl) as (H2 & Hcache & Htrace).
  { intros tr item entry _ _. apply Htime. }
  { intros [c data] Hin Hheld. simpl.
    (* the first run left an entry for every held code *)
    clear H1 Htime. unfold w1. clear w1.
    assert (Hnd := ledger_nodup txs).
    revert w Hnd Hin. generalize (ledger txs) as d.
    induction d as [|[c0 data0] d IH]; intros w Hnd Hin; [destruct Hin|].
    apply NoDup_cons in Hnd as [Hc0 Hnd]. simpl.
    destruct Hin as [[= -> ->]|Hin]; [|now apply IH].
    rewrite world_after_frame
      by (intros H; apply Hc0; now apply list_elem_of_In).
    unfold price_of. unfold held in Hheld. simpl in Hheld. rewrite Hheld.
    destruct (fetch_leaves env c w) as (_ & _ & (entry & Hentry & _) & _).
    destruct (fetch_stock_info env c w) as [info w2]. simpl in *.
    now exists entry. }
  rewrite H1, H2. auto.
Qed.

Lemma summary_twice_witness :
  fst (get_portfolio_summary Sample.after_29_minutes [Sample.tsmc_buy]
         (snd (get_portfolio_summary Sample.after_29_minutes
                 [Sample.tsmc_buy] Sample.fresh)))
  = fst (get_portfolio_summary Sample.after_29_minutes [Sample.tsmc_buy]
           Sample.fresh).
Proof.
  apply (summary_twice Sample.after_29_minutes [Sample.tsmc_buy] Sample.fresh).
  intros tr c entry Hentry.
  assert (Hcache :
            default ∅ (cache (snd (get_portfolio_summary
                                     Sample.after_29_minutes
                                     [Sample.tsmc_buy] Sample.fresh)))
            = {[ "2330.TW"%string :=
                   CacheEntry.mk 0 (Info.mk (Py.round2 512.344) "未知名稱") ]})
    by (vm_compute; reflexivity).
  rewrite Hcache in Hentry.
  apply lookup_singleton_Some in Hentry as [_ <-].
  destruct tr; vm_compute; reflexivity.
Defined.

(** ** The worksheet of names *)








Section NamesFacts.

Variable no_values : list (list string).
Hypothesis no_cells : Forall (fun row => row = []) no_values.











End NamesFacts.



(** X23.  A Buy whose row was appended is answered [True] also when the
    worksheet of names could not be read or written.  When the check
    raises, a row for the code is written below the others whether the
    code is listed or not: a code that was listed is then listed twice.
    When the check does not find the code and a call of the addition
    raises before the row is written, the code is still not listed. *)
Theorem names_worksheet_failures (no_values : list (list string))
    (sheet : list Transaction) (ws : NamesSheet) (t : Transaction) :
  Type_ t = "Buy"%string ->
  let code := Stock_Code t in
  let add o := add_transaction_to_google_sheet no_values sheet (Some ws) t o in
  (forall o, o = [true; true; false] \/ o = [true; true; true; false] ->
     returned (add o) = true /\
     names_after (add o)
     = Some (mkNamesSheet
               (names_values ws
                ++ repeat [] (length (get_all_values no_values ws)
                              - length (names_values ws))
                ++ [names_row code (Stock_Name t)
                      (S (length (get_all_values no_values ws)))])
               (if (names_row_count ws
                    <? S (length (get_all_values no_values ws)))%nat
                then names_row_count ws + 100 else names_row_count ws)%nat)) /\
  (listed no_values (Some ws) code = false ->
   forall k, (k <= 2)%nat ->
     let o := [true; true; true; true] ++ repeat true k ++ [false] in
     returned (add o) = true /\
     listed no_values (names_after (add o)) code = false).
Proof.
  intros Hty code add. subst code. unfold add, add_transaction_to_google_sheet.
  rewrite Hty. cbn [String.eqb Ascii.eqb Bool.eqb].
  split.
  - intros o [-> | ->]; simpl call; cbn [negb];
      unfold check_stock_exists_in_names; simpl call; cbn [negb];
      unfold add_stock_to_names_sheet, write_names_row; simpl call;
      cbn [negb];
      destruct (names_row_count ws <? _)%nat; simpl; auto.
  - intros Hnot k Hk. cbv zeta.
    assert (Hcheck : forall o',
               check_stock_exists_in_names no_values (Some ws) (Stock_Code t)
                 (true :: true :: o') = (false, o')).
    { intros o'. unfold check_stock_exists_in_names. simpl call. cbn [negb].
      unfold listed, check_stock_exists_in_names in Hnot. simpl in Hnot.
      now rewrite Hnot. }
    cbn [app]. do 2 (simpl call; cbn [negb]). rewrite Hcheck. cbn [negb].
    destruct k as [|[|[|k]]]; [| | |lia]; simpl repeat; simpl app;
      unfold add_stock_to_names_sheet; simpl call; cbn [negb].
    + split; [reflexivity|exact Hnot].
    + unfold write_names_row. simpl call. cbn [negb].
      split; [reflexivity|exact Hnot].
    + unfold write_names_row. simpl call. cbn [negb].
      destruct (names_row_count ws <? _)%nat; simpl call; cbn [negb];
        (split; [reflexivity|]); simpl; exact Hnot.
Qed.

Lemma names_worksheet_failures_witness :
  let ws := mkNamesSheet [["code"%string]; ["2330.TW"%string]] 1000 in
  let add o :=
    add_transaction_to_google_sheet [] [] (Some ws) Sample.tsmc_buy o in
  returned (add [true; true; false]) = true /\
  option_map (fun ws' => map (firstn 1) (names_values ws'))
    (names_after (add [true; true; false]))
  = Some [["code"%string]; ["2330.TW"%string]; ["2330.TW"%string]].
Proof.
  intros ws add.
  destruct (names_worksheet_failures [] [] ws Sample.tsmc_buy eq_refl)
    as [Hraise _].
  destruct (Hraise [true; true; false] (or_introl eq_refl)) as [Hret Hnames].
  split; [exact Hret|].
  unfold add. rewrite Hnames. reflexivity.
Defined.

(** Sample: the first Buy of a code creates the worksheet with its header
    and writes row 2; the formula of a listed code asks for the code
    itself; rows are filled up to the longest one when they are read. *)
Example names_sheet_sample :
  option_map
    (fun ws => map (firstn 3) (names_values ws))
    (names_after
       (add_transaction_to_google_sheet [] [] None Sample.tsmc_buy []))
  = Some [["code"%string; "price"%string; "name"%string];
          ["2330.TW"%string; "=D2"%string; "TSMC"%string]] /\
  names_after
    (add_transaction_to_google_sheet [] [] None Sample.tsmc_buy
       [true; true; true; true; true; false])
  = Some (mkNamesSheet [] 1000) /\
  replace ".TW" "" "2330.TW" = "2330"%string /\
  replace ".TWO" ".TWO" "6488.TWO" = "6488.TWO"%string /\
  fill_gaps [["a"%string]; []; ["b"%string; "c"%string]]
  = [["a"%string; ""%string]; [""%string; ""%string];
     ["b"%string; "c"%string]].
Proof. repeat split; vm_compute; reflexivity. Qed.
